(** * Wisteria-Dataviz: the axis engine ([src/base/axis.cpp])

    A shallow embedding of [Wisteria::GraphItems::Axis]: range and tick
    generation ([SetRange]), the value <-> pixel mapping
    ([GetPhysicalCoordinate], [GetValueFromPhysicalCoordinate]), scale
    reversal, label stacking and the label-scaling search.

    Number model.
    - [double] is embedded as [Q]: arithmetic is exact, there is no NaN and
      no infinity.  Every concrete input used below is a small integer or a
      short decimal, for which the binary64 computation takes the same
      branches.
    - [wxCoord], [long] are embedded as [Z] (signed overflow is undefined
      behaviour in C++ and is not modelled); a conversion from [double] to an
      integer type truncates toward zero ([double_to_int]).
    - [size_t] is embedded as [Z] with its wrap-around modulo [2^64] written
      out where the code can reach it.

    [axis.h] and the math helpers ([safe_divide], [safe_modulus],
    [compare_doubles]) are not part of the sources at hand; what is taken
    from them is marked where it is introduced. *)

From Stdlib Require Import ZArith QArith Qabs Qround List Sorted String Bool.
From Stdlib Require Import Lia Lra Lqa.
Import ListNotations.

Local Open Scope Z_scope.

(** ** Numeric helpers *)

Definition Qlt_bool (x y : Q) : bool := negb (Qle_bool y x).

(** [static_cast] from [double] to an integer type: truncation toward zero. *)
Definition double_to_int (q : Q) : Z :=
  if Qle_bool 0 q then Qfloor q else Qceiling q.

(** [std::ceil]. *)
Definition ceil (q : Q) : Q := inject_Z (Qceiling q).

(** [std::min(a, b)]: [b] when [b < a], else [a]. *)
Definition std_min (a b : Q) : Q := if Qlt_bool b a then b else a.

(** [std::max(a, b)]: [b] when [a < b], else [a]. *)
Definition std_max (a b : Q) : Q := if Qlt_bool a b then b else a.

Definition size_t_modulus : Z := 2 ^ 64.

(** Unsigned wrap-around of [size_t]. *)
Definition to_size_t (z : Z) : Z := z mod size_t_modulus.

(** [n - 1] on a [size_t] that holds a container size ([0 <= n < 2^64]). *)
Definition size_t_pred (n : Z) : Z :=
  if n =? 0 then size_t_modulus - 1 else n - 1.

(** Modelled from the spec: [safe_divide] is declared in a math header that
    is not among the sources.  Section 7 of the spec says each computation
    "returns a neutral/zero result rather than dividing by zero"; the result
    is zero when either operand is zero and the quotient otherwise. *)
Definition safe_divide (dividend divisor : Q) : Q :=
  if Qeq_bool dividend 0 || Qeq_bool divisor 0 then 0%Q
  else (dividend / divisor)%Q.

(** [safe_divide] at an integer type ([long], [wxCoord], [size_t]): C++
    integer division truncates toward zero. *)
Definition safe_divide_int (dividend divisor : Z) : Z :=
  if (dividend =? 0) || (divisor =? 0) then 0 else Z.quot dividend divisor.

(** Modelled from the spec: [safe_modulus], the remainder counterpart of
    [safe_divide] (same missing header, same zero policy). *)
Definition safe_modulus (dividend divisor : Z) : Z :=
  if (dividend =? 0) || (divisor =? 0) then 0 else Z.rem dividend divisor.

(** ** Loops

    A [while] loop over a state.  [while_fuel] runs at most [fuel] extra
    iterations and answers [None] when the loop condition still holds after
    them; [iter_while] is its total companion, used where an iteration bound
    is computed beforehand. *)

Fixpoint while_fuel {S : Type} (fuel : nat) (cond : S -> bool)
    (body : S -> S) (s : S) : option S :=
  match fuel with
  | O => if cond s then None else Some s
  | Datatypes.S f =>
      if cond s then while_fuel f cond body (body s) else Some s
  end.

Fixpoint iter_while {S : Type} (n : nat) (cond : S -> bool)
    (body : S -> S) (s : S) : S :=
  match n with
  | O => s
  | Datatypes.S n' =>
      if cond s then iter_while n' cond body (body s) else s
  end.

(** Index of the first element satisfying [f], [length l] when there is none:
    the iterator loops of the form
    [for (pos = begin; pos != end; ++pos) if (f pos) break;]. *)
Fixpoint find_first {A : Type} (f : A -> bool) (l : list A) : nat :=
  match l with
  | [] => O
  | x :: r => if f x then O else Datatypes.S (find_first f r)
  end.

(** ** Geometry and labels *)

Record wxPoint : Type := mkPoint { x : Z; y : Z }.

Record wxSize : Type := mkSize { GetWidth : Z; GetHeight : Z }.

Record Padding : Type := mkPadding {
  GetTopPadding : Z;
  GetRightPadding : Z;
  GetBottomPadding : Z;
  GetLeftPadding : Z
}.

Module Label.

(** The part of [GraphItems::Label] the axis code reads and writes: the
    text, the validity flag ([GraphItemInfo::Ok]), the scaling, the padding
    and the minimum user size. *)
Record t : Type := mk {
  GetText : string;
  IsOk : bool;
  GetScaling : Q;
  padding : Padding;
  minimumUserWidth : option Z;
  minimumUserHeight : option Z
}.

Definition SetText (l : t) (s : string) : t :=
  mk s (IsOk l) (GetScaling l) (padding l)
     (minimumUserWidth l) (minimumUserHeight l).

Definition SetScaling (l : t) (s : Q) : t :=
  mk (GetText l) (IsOk l) s (padding l)
     (minimumUserWidth l) (minimumUserHeight l).

Definition SetPadding (l : t) (p : Padding) : t :=
  mk (GetText l) (IsOk l) (GetScaling l) p
     (minimumUserWidth l) (minimumUserHeight l).

Definition SetMinimumUserSizeDIPs (l : t) (w h : option Z) : t :=
  mk (GetText l) (IsOk l) (GetScaling l) (padding l) w h.

(** [Label(GraphItemInfo(text).Scaling(s).Padding(p))]. *)
Definition make (text : string) (scaling : Q) (p : Padding) : t :=
  mk text true scaling p None None.

(** [Label(GraphItemInfo().Ok(false))]. *)
Definition invalid : t :=
  mk EmptyString false 1%Q (mkPadding 0 0 0 0) None None.

End Label.

Abbreviation Label := Label.t.

Module AxisPoint.

(** [Axis::AxisPoint]: value, display text, shown flag and the physical
    coordinate.  The coordinate is a [double] in the code ([Draw] casts it
    to [wxCoord]); a new point starts at the sentinel [-1]. *)
Record t : Type := mk {
  GetValue : Q;
  GetDisplayValue : string;
  IsShown : bool;
  GetPhysicalCoordinate : Q
}.

(** [AxisPoint(value, displayValue, show)]. *)
Definition make (value : Q) (displayValue : string) (show : bool) : t :=
  mk value displayValue show (-1)%Q.

Definition SetShown (p : t) (show : bool) : t :=
  mk (GetValue p) (GetDisplayValue p) show (GetPhysicalCoordinate p).

Definition SetPhysicalCoordinate (p : t) (c : Q) : t :=
  mk (GetValue p) (GetDisplayValue p) (IsShown p) c.

End AxisPoint.

Abbreviation AxisPoint := AxisPoint.t.

Inductive AxisType : Type :=
  | BottomXAxis | TopXAxis | LeftYAxis | RightYAxis.

Inductive AxisLabelOrientation : Type :=
  | Parallel | Perpendicular.

Inductive AxisLabelDisplay : Type :=
  | DisplayCustomLabelsOrValues
  | DisplayOnlyCustomLabels
  | DisplayCustomLabelsAndValues.

Inductive AxisResetLevel : Type :=
  | CosmeticSettings
  | Brackets
  | TitleHeaderFooter
  | RangeAndLabelValues
  | AllSettings.

Definition AxisLabelOrientation_eqb (a b : AxisLabelOrientation) : bool :=
  match a, b with
  | Parallel, Parallel | Perpendicular, Perpendicular => true
  | _, _ => false
  end.

Definition AxisLabelDisplay_eqb (a b : AxisLabelDisplay) : bool :=
  match a, b with
  | DisplayCustomLabelsOrValues, DisplayCustomLabelsOrValues
  | DisplayOnlyCustomLabels, DisplayOnlyCustomLabels
  | DisplayCustomLabelsAndValues, DisplayCustomLabelsAndValues => true
  | _, _ => false
  end.

Definition AxisResetLevel_eqb (a b : AxisResetLevel) : bool :=
  match a, b with
  | CosmeticSettings, CosmeticSettings
  | Brackets, Brackets
  | TitleHeaderFooter, TitleHeaderFooter
  | RangeAndLabelValues, RangeAndLabelValues
  | AllSettings, AllSettings => true
  | _, _ => false
  end.

(** ** The axis

    The members of [Axis] that the modelled operations read or write. The
    brackets, tick marks, title, header, footer, pens and fonts are left out:
    no operation below depends on them. *)

Record Axis : Type := mkAxis {
  m_type : AxisType;
  m_axisLabels : list AxisPoint;
  m_customAxisLabels : list (Q * Label);
  m_rangeStart : Q;
  m_rangeEnd : Q;
  m_displayPrecision : Z;
  m_interval : Q;
  m_tickMarkInterval : Q;
  m_displayInterval : Z;
  m_scaledReserved : bool;
  m_startAtZero : bool;
  m_widestLabel : Label;
  m_tallestLabel : Label;
  m_points : wxPoint * wxPoint;
  m_labelSpacingPhysicalOffset : Q;
  m_stackLabelsToFit : bool;
  m_enableAutoStacking : bool;
  m_labelOrientation : AxisLabelOrientation;
  m_labelDisplay : AxisLabelDisplay;
  m_showOuterLabels : bool;
  m_showAxisLabels : bool;
  m_scaling : Q;
  m_axisLabelScaling : Q;
  m_maxLabelWidth : Z;
  m_padding : Padding;
  m_fontBackgroundColorIsSet : bool
}.

Definition set_m_axisLabels (v : list AxisPoint) (a : Axis) : Axis :=
  mkAxis (m_type a) v (m_customAxisLabels a) (m_rangeStart a) (m_rangeEnd a)
    (m_displayPrecision a) (m_interval a) (m_tickMarkInterval a)
    (m_displayInterval a) (m_scaledReserved a) (m_startAtZero a)
    (m_widestLabel a) (m_tallestLabel a) (m_points a)
    (m_labelSpacingPhysicalOffset a) (m_stackLabelsToFit a)
    (m_enableAutoStacking a) (m_labelOrientation a) (m_labelDisplay a)
    (m_showOuterLabels a) (m_showAxisLabels a) (m_scaling a)
    (m_axisLabelScaling a) (m_maxLabelWidth a) (m_padding a)
    (m_fontBackgroundColorIsSet a).

Definition set_m_customAxisLabels (v : list (Q * Label)) (a : Axis) : Axis :=
  mkAxis (m_type a) (m_axisLabels a) v (m_rangeStart a) (m_rangeEnd a)
    (m_displayPrecision a) (m_interval a) (m_tickMarkInterval a)
    (m_displayInterval a) (m_scaledReserved a) (m_startAtZero a)
    (m_widestLabel a) (m_tallestLabel a) (m_points a)
    (m_labelSpacingPhysicalOffset a) (m_stackLabelsToFit a)
    (m_enableAutoStacking a) (m_labelOrientation a) (m_labelDisplay a)
    (m_showOuterLabels a) (m_showAxisLabels a) (m_scaling a)
    (m_axisLabelScaling a) (m_maxLabelWidth a) (m_padding a)
    (m_fontBackgroundColorIsSet a).

Definition set_m_rangeStart (v : Q) (a : Axis) : Axis :=
  mkAxis (m_type a) (m_axisLabels a) (m_customAxisLabels a) v (m_rangeEnd a)
    (m_displayPrecision a) (m_interval a) (m_tickMarkInterval a)
    (m_displayInterval a) (m_scaledReserved a) (m_startAtZero a)
    (m_widestLabel a) (m_tallestLabel a) (m_points a)
    (m_labelSpacingPhysicalOffset a) (m_stackLabelsToFit a)
    (m_enableAutoStacking a) (m_labelOrientation a) (m_labelDisplay a)
    (m_showOuterLabels a) (m_showAxisLabels a) (m_scaling a)
    (m_axisLabelScaling a) (m_maxLabelWidth a) (m_padding a)
    (m_fontBackgroundColorIsSet a).

Definition set_m_rangeEnd (v : Q) (a : Axis) : Axis :=
  mkAxis (m_type a) (m_axisLabels a) (m_customAxisLabels a) (m_rangeStart a) v
    (m_displayPrecision a) (m_interval a) (m_tickMarkInterval a)
    (m_displayInterval a) (m_scaledReserved a) (m_startAtZero a)
    (m_widestLabel a) (m_tallestLabel a) (m_points a)
    (m_labelSpacingPhysicalOffset a) (m_stackLabelsToFit a)
    (m_enableAutoStacking a) (m_labelOrientation a) (m_labelDisplay a)
    (m_showOuterLabels a) (m_showAxisLabels a) (m_scaling a)
    (m_axisLabelScaling a) (m_maxLabelWidth a) (m_padding a)
    (m_fontBackgroundColorIsSet a).

Definition set_m_displayPrecision (v : Z) (a : Axis) : Axis :=
  mkAxis (m_type a) (m_axisLabels a) (m_customAxisLabels a) (m_rangeStart a)
    (m_rangeEnd a) v (m_interval a) (m_tickMarkInterval a) (m_displayInterval
    a) (m_scaledReserved a) (m_startAtZero a) (m_widestLabel a)
    (m_tallestLabel a) (m_points a) (m_labelSpacingPhysicalOffset a)
    (m_stackLabelsToFit a) (m_enableAutoStacking a) (m_labelOrientation a)
    (m_labelDisplay a) (m_showOuterLabels a) (m_showAxisLabels a) (m_scaling
    a) (m_axisLabelScaling a) (m_maxLabelWidth a) (m_padding a)
    (m_fontBackgroundColorIsSet a).

Definition set_m_interval (v : Q) (a : Axis) : Axis :=
  mkAxis (m_type a) (m_axisLabels a) (m_customAxisLabels a) (m_rangeStart a)
    (m_rangeEnd a) (m_displayPrecision a) v (m_tickMarkInterval a)
    (m_displayInterval a) (m_scaledReserved a) (m_startAtZero a)
    (m_widestLabel a) (m_tallestLabel a) (m_points a)
    (m_labelSpacingPhysicalOffset a) (m_stackLabelsToFit a)
    (m_enableAutoStacking a) (m_labelOrientation a) (m_labelDisplay a)
    (m_showOuterLabels a) (m_showAxisLabels a) (m_scaling a)
    (m_axisLabelScaling a) (m_maxLabelWidth a) (m_padding a)
    (m_fontBackgroundColorIsSet a).

Definition set_m_tickMarkInterval (v : Q) (a : Axis) : Axis :=
  mkAxis (m_type a) (m_axisLabels a) (m_customAxisLabels a) (m_rangeStart a)
    (m_rangeEnd a) (m_displayPrecision a) (m_interval a) v (m_displayInterval
    a) (m_scaledReserved a) (m_startAtZero a) (m_widestLabel a)
    (m_tallestLabel a) (m_points a) (m_labelSpacingPhysicalOffset a)
    (m_stackLabelsToFit a) (m_enableAutoStacking a) (m_labelOrientation a)
    (m_labelDisplay a) (m_showOuterLabels a) (m_showAxisLabels a) (m_scaling
    a) (m_axisLabelScaling a) (m_maxLabelWidth a) (m_padding a)
    (m_fontBackgroundColorIsSet a).

Definition set_m_displayInterval (v : Z) (a : Axis) : Axis :=
  mkAxis (m_type a) (m_axisLabels a) (m_customAxisLabels a) (m_rangeStart a)
    (m_rangeEnd a) (m_displayPrecision a) (m_interval a) (m_tickMarkInterval
    a) v (m_scaledReserved a) (m_startAtZero a) (m_widestLabel a)
    (m_tallestLabel a) (m_points a) (m_labelSpacingPhysicalOffset a)
    (m_stackLabelsToFit a) (m_enableAutoStacking a) (m_labelOrientation a)
    (m_labelDisplay a) (m_showOuterLabels a) (m_showAxisLabels a) (m_scaling
    a) (m_axisLabelScaling a) (m_maxLabelWidth a) (m_padding a)
    (m_fontBackgroundColorIsSet a).

Definition set_m_scaledReserved (v : bool) (a : Axis) : Axis :=
  mkAxis (m_type a) (m_axisLabels a) (m_customAxisLabels a) (m_rangeStart a)
    (m_rangeEnd a) (m_displayPrecision a) (m_interval a) (m_tickMarkInterval
    a) (m_displayInterval a) v (m_startAtZero a) (m_widestLabel a)
    (m_tallestLabel a) (m_points a) (m_labelSpacingPhysicalOffset a)
    (m_stackLabelsToFit a) (m_enableAutoStacking a) (m_labelOrientation a)
    (m_labelDisplay a) (m_showOuterLabels a) (m_showAxisLabels a) (m_scaling
    a) (m_axisLabelScaling a) (m_maxLabelWidth a) (m_padding a)
    (m_fontBackgroundColorIsSet a).

Definition set_m_widestLabel (v : Label) (a : Axis) : Axis :=
  mkAxis (m_type a) (m_axisLabels a) (m_customAxisLabels a) (m_rangeStart a)
    (m_rangeEnd a) (m_displayPrecision a) (m_interval a) (m_tickMarkInterval
    a) (m_displayInterval a) (m_scaledReserved a) (m_startAtZero a) v
    (m_tallestLabel a) (m_points a) (m_labelSpacingPhysicalOffset a)
    (m_stackLabelsToFit a) (m_enableAutoStacking a) (m_labelOrientation a)
    (m_labelDisplay a) (m_showOuterLabels a) (m_showAxisLabels a) (m_scaling
    a) (m_axisLabelScaling a) (m_maxLabelWidth a) (m_padding a)
    (m_fontBackgroundColorIsSet a).

Definition set_m_tallestLabel (v : Label) (a : Axis) : Axis :=
  mkAxis (m_type a) (m_axisLabels a) (m_customAxisLabels a) (m_rangeStart a)
    (m_rangeEnd a) (m_displayPrecision a) (m_interval a) (m_tickMarkInterval
    a) (m_displayInterval a) (m_scaledReserved a) (m_startAtZero a)
    (m_widestLabel a) v (m_points a) (m_labelSpacingPhysicalOffset a)
    (m_stackLabelsToFit a) (m_enableAutoStacking a) (m_labelOrientation a)
    (m_labelDisplay a) (m_showOuterLabels a) (m_showAxisLabels a) (m_scaling
    a) (m_axisLabelScaling a) (m_maxLabelWidth a) (m_padding a)
    (m_fontBackgroundColorIsSet a).

Definition set_m_points (v : wxPoint * wxPoint) (a : Axis) : Axis :=
  mkAxis (m_type a) (m_axisLabels a) (m_customAxisLabels a) (m_rangeStart a)
    (m_rangeEnd a) (m_displayPrecision a) (m_interval a) (m_tickMarkInterval
    a) (m_displayInterval a) (m_scaledReserved a) (m_startAtZero a)
    (m_widestLabel a) (m_tallestLabel a) v (m_labelSpacingPhysicalOffset a)
    (m_stackLabelsToFit a) (m_enableAutoStacking a) (m_labelOrientation a)
    (m_labelDisplay a) (m_showOuterLabels a) (m_showAxisLabels a) (m_scaling
    a) (m_axisLabelScaling a) (m_maxLabelWidth a) (m_padding a)
    (m_fontBackgroundColorIsSet a).

Definition set_m_labelSpacingPhysicalOffset (v : Q) (a : Axis) : Axis :=
  mkAxis (m_type a) (m_axisLabels a) (m_customAxisLabels a) (m_rangeStart a)
    (m_rangeEnd a) (m_displayPrecision a) (m_interval a) (m_tickMarkInterval
    a) (m_displayInterval a) (m_scaledReserved a) (m_startAtZero a)
    (m_widestLabel a) (m_tallestLabel a) (m_points a) v (m_stackLabelsToFit a)
    (m_enableAutoStacking a) (m_labelOrientation a) (m_labelDisplay a)
    (m_showOuterLabels a) (m_showAxisLabels a) (m_scaling a)
    (m_axisLabelScaling a) (m_maxLabelWidth a) (m_padding a)
    (m_fontBackgroundColorIsSet a).

Definition set_m_axisLabelScaling (v : Q) (a : Axis) : Axis :=
  mkAxis (m_type a) (m_axisLabels a) (m_customAxisLabels a) (m_rangeStart a)
    (m_rangeEnd a) (m_displayPrecision a) (m_interval a) (m_tickMarkInterval
    a) (m_displayInterval a) (m_scaledReserved a) (m_startAtZero a)
    (m_widestLabel a) (m_tallestLabel a) (m_points a)
    (m_labelSpacingPhysicalOffset a) (m_stackLabelsToFit a)
    (m_enableAutoStacking a) (m_labelOrientation a) (m_labelDisplay a)
    (m_showOuterLabels a) (m_showAxisLabels a) (m_scaling a) v
    (m_maxLabelWidth a) (m_padding a) (m_fontBackgroundColorIsSet a).

Definition set_m_maxLabelWidth (v : Z) (a : Axis) : Axis :=
  mkAxis (m_type a) (m_axisLabels a) (m_customAxisLabels a) (m_rangeStart a)
    (m_rangeEnd a) (m_displayPrecision a) (m_interval a) (m_tickMarkInterval
    a) (m_displayInterval a) (m_scaledReserved a) (m_startAtZero a)
    (m_widestLabel a) (m_tallestLabel a) (m_points a)
    (m_labelSpacingPhysicalOffset a) (m_stackLabelsToFit a)
    (m_enableAutoStacking a) (m_labelOrientation a) (m_labelDisplay a)
    (m_showOuterLabels a) (m_showAxisLabels a) (m_scaling a)
    (m_axisLabelScaling a) v (m_padding a) (m_fontBackgroundColorIsSet a).

Definition set_m_stackLabelsToFit (v : bool) (a : Axis) : Axis :=
  mkAxis (m_type a) (m_axisLabels a) (m_customAxisLabels a) (m_rangeStart a)
    (m_rangeEnd a) (m_displayPrecision a) (m_interval a) (m_tickMarkInterval
    a) (m_displayInterval a) (m_scaledReserved a) (m_startAtZero a)
    (m_widestLabel a) (m_tallestLabel a) (m_points a)
    (m_labelSpacingPhysicalOffset a) v (m_enableAutoStacking a)
    (m_labelOrientation a) (m_labelDisplay a) (m_showOuterLabels a)
    (m_showAxisLabels a) (m_scaling a) (m_axisLabelScaling a) (m_maxLabelWidth
    a) (m_padding a) (m_fontBackgroundColorIsSet a).

Definition set_m_enableAutoStacking (v : bool) (a : Axis) : Axis :=
  mkAxis (m_type a) (m_axisLabels a) (m_customAxisLabels a) (m_rangeStart a)
    (m_rangeEnd a) (m_displayPrecision a) (m_interval a) (m_tickMarkInterval
    a) (m_displayInterval a) (m_scaledReserved a) (m_startAtZero a)
    (m_widestLabel a) (m_tallestLabel a) (m_points a)
    (m_labelSpacingPhysicalOffset a) (m_stackLabelsToFit a) v
    (m_labelOrientation a) (m_labelDisplay a) (m_showOuterLabels a)
    (m_showAxisLabels a) (m_scaling a) (m_axisLabelScaling a) (m_maxLabelWidth
    a) (m_padding a) (m_fontBackgroundColorIsSet a).

Definition set_m_startAtZero (v : bool) (a : Axis) : Axis :=
  mkAxis (m_type a) (m_axisLabels a) (m_customAxisLabels a) (m_rangeStart a)
    (m_rangeEnd a) (m_displayPrecision a) (m_interval a) (m_tickMarkInterval
    a) (m_displayInterval a) (m_scaledReserved a) v (m_widestLabel a)
    (m_tallestLabel a) (m_points a) (m_labelSpacingPhysicalOffset a)
    (m_stackLabelsToFit a) (m_enableAutoStacking a) (m_labelOrientation a)
    (m_labelDisplay a) (m_showOuterLabels a) (m_showAxisLabels a) (m_scaling
    a) (m_axisLabelScaling a) (m_maxLabelWidth a) (m_padding a)
    (m_fontBackgroundColorIsSet a).

Definition set_m_labelDisplay (v : AxisLabelDisplay) (a : Axis) : Axis :=
  mkAxis (m_type a) (m_axisLabels a) (m_customAxisLabels a) (m_rangeStart a)
    (m_rangeEnd a) (m_displayPrecision a) (m_interval a) (m_tickMarkInterval
    a) (m_displayInterval a) (m_scaledReserved a) (m_startAtZero a)
    (m_widestLabel a) (m_tallestLabel a) (m_points a)
    (m_labelSpacingPhysicalOffset a) (m_stackLabelsToFit a)
    (m_enableAutoStacking a) (m_labelOrientation a) v (m_showOuterLabels a)
    (m_showAxisLabels a) (m_scaling a) (m_axisLabelScaling a) (m_maxLabelWidth
    a) (m_padding a) (m_fontBackgroundColorIsSet a).

Definition set_m_labelOrientation (v : AxisLabelOrientation) (a : Axis) : Axis :=
  mkAxis (m_type a) (m_axisLabels a) (m_customAxisLabels a) (m_rangeStart a)
    (m_rangeEnd a) (m_displayPrecision a) (m_interval a) (m_tickMarkInterval
    a) (m_displayInterval a) (m_scaledReserved a) (m_startAtZero a)
    (m_widestLabel a) (m_tallestLabel a) (m_points a)
    (m_labelSpacingPhysicalOffset a) (m_stackLabelsToFit a)
    (m_enableAutoStacking a) v (m_labelDisplay a) (m_showOuterLabels a)
    (m_showAxisLabels a) (m_scaling a) (m_axisLabelScaling a) (m_maxLabelWidth
    a) (m_padding a) (m_fontBackgroundColorIsSet a).

Definition set_m_fontBackgroundColorIsSet (v : bool) (a : Axis) : Axis :=
  mkAxis (m_type a) (m_axisLabels a) (m_customAxisLabels a) (m_rangeStart a)
    (m_rangeEnd a) (m_displayPrecision a) (m_interval a)
    (m_tickMarkInterval a) (m_displayInterval a) (m_scaledReserved a)
    (m_startAtZero a) (m_widestLabel a) (m_tallestLabel a) (m_points a)
    (m_labelSpacingPhysicalOffset a) (m_stackLabelsToFit a)
    (m_enableAutoStacking a) (m_labelOrientation a) (m_labelDisplay a)
    (m_showOuterLabels a) (m_showAxisLabels a) (m_scaling a)
    (m_axisLabelScaling a) (m_maxLabelWidth a) (m_padding a) v.

(** ** Operations *)

Section Model.

(** Tolerance of [compare_doubles] (its default third argument).  The
    helper lives in a header that is not among the sources, so the constant
    is a parameter: every statement below holds for each tolerance, the
    exact comparison (tolerance zero) included. *)
Variable compare_doubles_delta : Q.

(** [wxNumberFormatter::ToString(value, precision, Style_WithThousandsSep)]. *)
Variable ToString : Q -> Z -> string.

(** [Label::GetBoundingBox(dc).GetSize()]: the text-measurement service of
    the device context. *)
Variable GetBoundingBox : Label -> wxSize.

(** [Label::SplitTextToFitLength(m_suggestedMaxLengthPerLine)], on the text. *)
Variable SplitTextToFitLength : string -> string.

(** [GraphItemBase::ScaleToScreenAndCanvas] and [wxDC::ToDIP]. *)
Variable ScaleToScreenAndCanvas : Axis -> Z -> Z.
Variable ToDIP : Z -> Z.

(** [compare_doubles(actual, expected)]: equality up to the tolerance,
    [fabs(actual - expected) <= fabs(delta)]. *)
Definition compare_doubles (actual expected : Q) : bool :=
  Qle_bool (Qabs (actual - expected)) (Qabs compare_doubles_delta).

(** [AxisPoint::operator==(double)] and [AxisPoint::operator<(double)]
    ([axis.h]): both look at the value only; equality goes through
    [compare_doubles]. *)
Definition AxisPoint_eq (p : AxisPoint) (value : Q) : bool :=
  compare_doubles (AxisPoint.GetValue p) value.

Definition AxisPoint_lt (p : AxisPoint) (value : Q) : bool :=
  Qlt_bool (AxisPoint.GetValue p) value.

Definition IsHorizontal (a : Axis) : bool :=
  match m_type a with
  | BottomXAxis | TopXAxis => true
  | _ => false
  end.

Definition IsVertical (a : Axis) : bool :=
  match m_type a with
  | LeftYAxis | RightYAxis => true
  | _ => false
  end.

Definition IsReversed (a : Axis) : bool := m_scaledReserved a.
Definition IsStartingAtZero (a : Axis) : bool := m_startAtZero a.
Definition IsAutoStackingEnabled (a : Axis) : bool := m_enableAutoStacking a.
Definition IsStackingLabels (a : Axis) : bool := m_stackLabelsToFit a.
Definition IsShowingOuterLabels (a : Axis) : bool := m_showOuterLabels a.
Definition IsShowingLabels (a : Axis) : bool := m_showAxisLabels a.
Definition GetAxisPoints (a : Axis) : list AxisPoint := m_axisLabels a.
Definition GetAxisPointsCount (a : Axis) : Z :=
  Z.of_nat (List.length (m_axisLabels a)).
Definition GetScaling (a : Axis) : Q := m_scaling a.
Definition GetAxisLabelScaling (a : Axis) : Q := m_axisLabelScaling a.
Definition GetAxisLabelOrientation (a : Axis) := m_labelOrientation a.
Definition GetLabelDisplay (a : Axis) := m_labelDisplay a.
Definition GetLabelPhysicalOffset (a : Axis) : Q :=
  m_labelSpacingPhysicalOffset a.

(** The first stored endpoint is the top one of a vertical axis and the
    left one of a horizontal axis (see [SetPoints]). *)
Definition GetTopPoint (a : Axis) : wxPoint := fst (m_points a).
Definition GetBottomPoint (a : Axis) : wxPoint := snd (m_points a).
Definition GetLeftPoint (a : Axis) : wxPoint := fst (m_points a).
Definition GetRightPoint (a : Axis) : wxPoint := snd (m_points a).

(** [m_widestLabel = m_tallestLabel = Label(GraphItemInfo().Ok(false))]. *)
Definition invalidate_cached_labels (a : Axis) : Axis :=
  set_m_widestLabel Label.invalid (set_m_tallestLabel Label.invalid a).

(** *** [std::lower_bound]

    The binary search of the standard library over the points, comparing
    with [AxisPoint::operator<(double)]: [first] and [len] delimit the
    remaining range. *)
Fixpoint lower_bound_loop (fuel : nat) (l : list AxisPoint)
    (first len : nat) (value : Q) : nat :=
  match fuel with
  | O => first
  | S fuel' =>
      match len with
      | O => first
      | _ =>
          let half := Nat.div2 len in
          let middle := (first + half)%nat in
          match nth_error l middle with
          | Some p =>
              if AxisPoint_lt p value
              then lower_bound_loop fuel' l (S middle) (len - half - 1) value
              else lower_bound_loop fuel' l first half value
          | None => first
          end
      end
  end.

Definition lower_bound (l : list AxisPoint) (value : Q) : nat :=
  lower_bound_loop (List.length l) l 0 (List.length l) value.

(** *** [Axis::GetPhysicalCoordinate]

    [interpolate_coordinate] is the tail of the function: the linear
    interpolation between the found point [pos] and its predecessor, in
    the direction of the axis.  The pair is the returned flag and the
    [result] out-parameter. *)
Definition interpolate_coordinate (a : Axis) (previousLine pos : AxisPoint)
    (value : Q) : bool * Z :=
  let lowerLineValue := AxisPoint.GetValue previousLine in
  let upperLineValue := AxisPoint.GetValue pos in
  let percentage :=
    safe_divide (value - lowerLineValue)
                (upperLineValue - lowerLineValue) in
  if IsHorizontal a then
    let coordinateDifference :=
      double_to_int
        (AxisPoint.GetPhysicalCoordinate pos
         - AxisPoint.GetPhysicalCoordinate previousLine) in
    (true,
     double_to_int
       (AxisPoint.GetPhysicalCoordinate previousLine
        + inject_Z coordinateDifference * percentage))
  else if IsVertical a then
    let coordinateDifference :=
      double_to_int
        (AxisPoint.GetPhysicalCoordinate previousLine
         - AxisPoint.GetPhysicalCoordinate pos) in
    (true,
     double_to_int
       (AxisPoint.GetPhysicalCoordinate previousLine
        - inject_Z coordinateDifference * percentage))
  else (false, -1).

(** The loop condition of the search on a reversed axis. *)
Definition reversed_search (value : Q) (p : AxisPoint) : bool :=
  Qle_bool (AxisPoint.GetValue p) value
  || compare_doubles value (AxisPoint.GetValue p).

Definition GetPhysicalCoordinate (a : Axis) (value : Q) : bool * Z :=
  let points := GetAxisPoints a in
  if GetAxisPointsCount a =? 0 then (false, -1)
  else
    let pos :=
      if IsReversed a
      then find_first (reversed_search value) points
      else lower_bound points value in
    match nth_error points pos with
    | None => (false, -1)
    | Some p =>
        if AxisPoint_eq p value
        then (true, double_to_int (AxisPoint.GetPhysicalCoordinate p))
        else
          match pos with
          | O => (false, -1)
          | S prev =>
              interpolate_coordinate a (nth prev points p) p value
          end
    end.

(** *** [Axis::GetValueFromPhysicalCoordinate]

    The pair is the returned flag and the [value] out-parameter. *)
Definition interpolate_value (a : Axis) (previousLine pos : AxisPoint)
    (coordinate : Z) : bool * Q :=
  let lowerLineValue := AxisPoint.GetPhysicalCoordinate previousLine in
  let upperLineValue := AxisPoint.GetPhysicalCoordinate pos in
  let percentage :=
    safe_divide (inject_Z coordinate - lowerLineValue)
                (upperLineValue - lowerLineValue) in
  if IsHorizontal a then
    let coordinateDifference :=
      (AxisPoint.GetValue pos - AxisPoint.GetValue previousLine)%Q in
    (true,
     (AxisPoint.GetValue previousLine
      + coordinateDifference * percentage)%Q)
  else if IsVertical a then
    let coordinateDifference :=
      (AxisPoint.GetValue previousLine - AxisPoint.GetValue pos)%Q in
    (true,
     (AxisPoint.GetValue previousLine
      - coordinateDifference * percentage)%Q)
  else (false, (-1)%Q).

(** The loop condition of the pixel search: the first point at or past the
    coordinate, rightward on a horizontal axis and upward on a vertical
    one. *)
Definition pixel_search (a : Axis) (coordinate : Z) (p : AxisPoint)
    : bool :=
  if IsHorizontal a
  then Qle_bool (inject_Z coordinate) (AxisPoint.GetPhysicalCoordinate p)
  else Qle_bool (AxisPoint.GetPhysicalCoordinate p) (inject_Z coordinate).

Definition GetValueFromPhysicalCoordinate (a : Axis) (coordinate : Z)
    : bool * Q :=
  let points := GetAxisPoints a in
  if GetAxisPointsCount a =? 0 then (false, (-1)%Q)
  else if negb (IsHorizontal a) && negb (IsVertical a) then (false, (-1)%Q)
  else
    let pos := find_first (pixel_search a coordinate) points in
    match nth_error points pos with
    | None => (false, (-1)%Q)
    | Some p =>
        if Qeq_bool (inject_Z coordinate) (AxisPoint.GetPhysicalCoordinate p)
        then (true, AxisPoint.GetValue p)
        else
          match pos with
          | O => (false, (-1)%Q)
          | S prev => interpolate_value a (nth prev points p) p coordinate
          end
    end.

(** *** [Axis::SetRange], numeric overload

    The state of the point-generating [for] loops: the loop variable [i],
    [currentDisplayInterval], the collection built so far and
    [lastValidPoint]. *)
Definition range_loop_state : Type := (Q * Z * list AxisPoint * Q)%type.

Definition range_loop_i (s : range_loop_state) : Q :=
  let '(i, _, _, _) := s in i.

Definition range_loop_labels (s : range_loop_state) : list AxisPoint :=
  let '(_, _, labels, _) := s in labels.

Definition range_loop_last (s : range_loop_state) : Q :=
  let '(_, _, _, lastValidPoint) := s in lastValidPoint.

(** One iteration: decide whether the point displays its label, advance the
    display countdown ([--currentDisplayInterval] on a [size_t]), format the
    label, push the point and step [i] by [step]. *)
Definition range_loop_body (precision : Z) (step : Q) (displayInterval : Z)
    (s : range_loop_state) : range_loop_state :=
  let '(i, currentDisplayInterval, labels, _) := s in
  let display := currentDisplayInterval =? 1 in
  let currentDisplayInterval' :=
    if currentDisplayInterval =? 1 then displayInterval
    else to_size_t (currentDisplayInterval - 1) in
  let textLabel := ToString i precision in
  ((i + step)%Q, currentDisplayInterval',
   labels ++ [AxisPoint.make i textLabel display], i).

(** Number of iterations of a loop that starts [distance] away from its
    bound and advances by [interval]. *)
Definition range_loop_bound (distance interval : Q) : nat :=
  Z.to_nat (Qceiling (distance / interval)).

(** A degenerate range is widened by one interval on each side (an
    interval of zero counts as one); an interval that is still not
    positive is replaced by half the range. *)
Definition SetRange_resolve (rangeStart rangeEnd interval : Q)
    : Q * Q * Q :=
  let '(rangeStart, rangeEnd, interval) :=
    if Qeq_bool rangeEnd rangeStart
    then
      let interval := if Qeq_bool interval 0 then 1%Q else interval in
      ((rangeStart - interval)%Q, (rangeEnd + interval)%Q, interval)
    else (rangeStart, rangeEnd, interval) in
  let interval :=
    if Qle_bool interval 0
    then safe_divide (rangeEnd - rangeStart) 2
    else interval in
  (rangeStart, rangeEnd, interval).

(** The collection is cleared and rebuilt by one of the two [for] loops:
    downward from [rangeEnd] on a reversed axis, upward from [rangeStart]
    otherwise; the stored range is the first and the last generated
    value. *)
Definition SetRange_generate (a : Axis) (rangeStart rangeEnd : Q)
    (precision : Z) (interval : Q) (displayInterval : Z) : Axis :=
  let a := set_m_axisLabels [] a in
  if IsReversed a then
    let '(_, _, labels, lastValidPoint) :=
      iter_while
        (range_loop_bound (rangeEnd - (rangeStart - interval)) interval)
        (fun s => Qlt_bool (rangeStart - interval) (range_loop_i s))
        (range_loop_body precision (- interval) displayInterval)
        (rangeEnd, 1, m_axisLabels a, rangeEnd) in
    set_m_rangeEnd lastValidPoint
      (set_m_rangeStart rangeEnd (set_m_axisLabels labels a))
  else
    let '(_, _, labels, lastValidPoint) :=
      iter_while
        (range_loop_bound (rangeEnd + interval - rangeStart) interval)
        (fun s => Qlt_bool (range_loop_i s) (rangeEnd + interval))
        (range_loop_body precision interval displayInterval)
        (rangeStart, 1, m_axisLabels a, rangeStart) in
    set_m_rangeEnd lastValidPoint
      (set_m_rangeStart rangeStart (set_m_axisLabels labels a)).

(** The start of the range after the start-at-zero clamp. *)
Definition effective_start (a : Axis) (rangeStart : Q) : Q :=
  if IsStartingAtZero a then std_min 0 rangeStart else rangeStart.

Definition SetRange (a : Axis) (rangeStart rangeEnd : Q) (precision : Z)
    (interval : Q) (displayInterval : Z) : Axis :=
  let a := invalidate_cached_labels a in
  let rangeStart := effective_start a rangeStart in
  if Qlt_bool rangeEnd rangeStart then a
  else
    let a := set_m_displayPrecision precision a in
    let a := set_m_interval interval a in
    let a := set_m_tickMarkInterval interval a in
    let a := set_m_displayInterval displayInterval a in
    let '(rangeStart, rangeEnd, interval) :=
      SetRange_resolve rangeStart rangeEnd interval in
    SetRange_generate a rangeStart rangeEnd precision interval
      displayInterval.

(** *** [Axis::SetRange], auto-interval overload *)
Definition rangeDivisionFactor (rangeSize : Q) : Z :=
  if Qlt_bool 100000000 rangeSize then 100000000
  else if Qlt_bool 10000000 rangeSize then 10000000
  else if Qlt_bool 1000000 rangeSize then 1000000
  else if Qlt_bool 100000 rangeSize then 100000
  else if Qlt_bool 10000 rangeSize then 10000
  else if Qlt_bool 1000 rangeSize then 1000
  else if Qlt_bool 100 rangeSize then 100
  else if Qlt_bool 10 rangeSize then 10
  else 1.

(** The interval, the precision and the (possibly bumped) range size the
    overload settles on before it delegates. *)
Definition SetRange_auto_interval (rangeSize : Q) (precision : Z)
    : Q * Z * Q :=
  if Qle_bool rangeSize 1
  then ((2 # 10)%Q, (if precision =? 0 then 1 else precision), rangeSize)
  else
    let intervalSize :=
      if Qle_bool 100 rangeSize
      then (ceil (safe_divide rangeSize
                    (inject_Z (rangeDivisionFactor rangeSize)))
            * inject_Z (safe_divide_int (rangeDivisionFactor rangeSize) 10))%Q
      else if Qle_bool 20 rangeSize then 5%Q
      else ceil (safe_divide rangeSize 10) in
    let remainder :=
      safe_modulus (double_to_int rangeSize) (double_to_int intervalSize) in
    let rangeSize :=
      if negb (remainder =? 0)
      then (rangeSize - inject_Z remainder + intervalSize)%Q
      else rangeSize in
    (intervalSize, precision, rangeSize).

Definition SetRange_auto (a : Axis) (rangeStart rangeEnd : Q)
    (precision : Z) (includeExtraInterval : bool) : Axis :=
  let rangeStart := effective_start a rangeStart in
  let rangeSize := (rangeEnd - rangeStart)%Q in
  let '(intervalSize, precision, rangeSize) :=
    SetRange_auto_interval rangeSize precision in
  let rangeSize :=
    (rangeSize + (if includeExtraInterval then intervalSize else 0))%Q in
  SetRange a rangeStart (rangeStart + rangeSize) precision intervalSize 1.

(** *** [Axis::Reset] *)
Definition Reset (a : Axis) (level : AxisResetLevel) : Axis :=
  let a :=
    if AxisResetLevel_eqb level CosmeticSettings
       || AxisResetLevel_eqb level AllSettings
    then set_m_fontBackgroundColorIsSet false a
    else a in
  let a :=
    if AxisResetLevel_eqb level RangeAndLabelValues
       || AxisResetLevel_eqb level AllSettings
    then
      invalidate_cached_labels
        (set_m_displayInterval 1
           (set_m_interval 1
              (set_m_displayPrecision 0
                 (set_m_rangeEnd 0
                    (set_m_rangeStart 0
                       (set_m_labelSpacingPhysicalOffset 0
                          (set_m_customAxisLabels []
                             (set_m_axisLabels [] a))))))))
    else a in
  if AxisResetLevel_eqb level AllSettings
  then
    set_m_labelDisplay DisplayCustomLabelsOrValues
      (set_m_startAtZero false
         (set_m_scaledReserved false
            (set_m_enableAutoStacking (IsHorizontal a)
               (set_m_stackLabelsToFit false a))))
  else a.

(** *** [Axis::CopySettings]

    Of the members copied from [that], those that are part of the state
    modelled here.  The cached widest and tallest labels are not touched. *)
Definition CopySettings (a that : Axis) : Axis :=
  set_m_displayInterval (m_displayInterval that)
    (set_m_interval (m_interval that)
       (set_m_displayPrecision (m_displayPrecision that)
          (set_m_rangeEnd (m_rangeEnd that)
             (set_m_rangeStart (m_rangeStart that)
                (set_m_labelDisplay (m_labelDisplay that)
                   (set_m_startAtZero (m_startAtZero that)
                      (set_m_scaledReserved (m_scaledReserved that)
                         (set_m_fontBackgroundColorIsSet
                            (m_fontBackgroundColorIsSet that)
                            (set_m_labelSpacingPhysicalOffset
                               (m_labelSpacingPhysicalOffset that)
                               (set_m_enableAutoStacking
                                  (m_enableAutoStacking that)
                                  (set_m_stackLabelsToFit
                                     (m_stackLabelsToFit that)
                                     (set_m_labelOrientation
                                        (m_labelOrientation that)
                                        (set_m_customAxisLabels
                                           (m_customAxisLabels that)
                                           (set_m_axisLabels
                                              (m_axisLabels that)
                                              a)))))))))))))).

(** *** [Axis::ReverseScale] *)
Definition ReverseScale (a : Axis) (reverse : bool) : Axis :=
  let a :=
    if reverse && negb (IsReversed a)
    then set_m_axisLabels (rev (m_axisLabels a)) a
    else if negb reverse && IsReversed a
    then set_m_axisLabels (rev (m_axisLabels a)) a
    else a in
  invalidate_cached_labels (set_m_scaledReserved reverse a).

(** *** Custom labels: [std::map<double, Label>] as a sorted association
    list *)
Fixpoint custom_labels_insert (key : Q) (label : Label)
    (m : list (Q * Label)) : list (Q * Label) :=
  match m with
  | [] => [(key, label)]
  | (k, l) :: rest =>
      if Qlt_bool key k then (key, label) :: m
      else if Qlt_bool k key then (k, l) :: custom_labels_insert key label rest
      else (k, label) :: rest
  end.

Fixpoint custom_labels_find (key : Q) (m : list (Q * Label))
    : option Label :=
  match m with
  | [] => None
  | (k, l) :: rest =>
      if Qeq_bool key k then Some l else custom_labels_find key rest
  end.

Definition SetCustomLabel (a : Axis) (tickValue : Q) (label : Label)
    : Axis :=
  let a := invalidate_cached_labels a in
  let theLabel :=
    Label.SetText label (SplitTextToFitLength (Label.GetText label)) in
  set_m_customAxisLabels
    (custom_labels_insert tickValue theLabel (m_customAxisLabels a)) a.

Definition GetCustomLabel (a : Axis) (value : Q) : Label :=
  match custom_labels_find value (m_customAxisLabels a) with
  | Some l => l
  | None => Label.invalid
  end.

(** *** [Axis::SetAxisLabelOrientation] *)
Definition SetAxisLabelOrientation (a : Axis) (orient : AxisLabelOrientation)
    : Axis :=
  invalidate_cached_labels (set_m_labelOrientation orient a).

(** *** [Axis::AddUnevenAxisPoint] *)
Fixpoint insert_at {A : Type} (n : nat) (v : A) (l : list A) : list A :=
  match n, l with
  | O, _ => v :: l
  | S n', [] => [v]
  | S n', h :: t => h :: insert_at n' v t
  end.

Definition AddUnevenAxisPoint (a : Axis) (value : Q) (label : string)
    : Axis :=
  if existsb (fun p => AxisPoint_eq p value) (m_axisLabels a) then a
  else
    let pos :=
      find_first
        (fun p =>
           if m_scaledReserved a
           then Qlt_bool (AxisPoint.GetValue p) value
           else Qlt_bool value (AxisPoint.GetValue p))
        (m_axisLabels a) in
    set_m_axisLabels
      (insert_at pos
         (AxisPoint.make value (SplitTextToFitLength label) true)
         (m_axisLabels a)) a.

(** *** [Axis::AdjustRangeToLabels] *)
Definition AdjustRangeToLabels (a : Axis) : Axis :=
  match GetAxisPoints a with
  | [] => a
  | first :: _ =>
      let start0 := AxisPoint.GetValue first in
      let '(rangeStart, rangeEnd) :=
        fold_left
          (fun r p =>
             if IsReversed a
             then (std_max (fst r) (AxisPoint.GetValue p),
                   std_min (snd r) (AxisPoint.GetValue p))
             else (std_min (fst r) (AxisPoint.GetValue p),
                   std_max (snd r) (AxisPoint.GetValue p)))
          (GetAxisPoints a) (start0, start0) in
      set_m_rangeEnd rangeEnd (set_m_rangeStart rangeStart a)
  end.

(** *** [Axis::CalcLabelPositions] and [Axis::CalcTickMarkPositions]

    [GetAxisPointsCount() - 1] is a [size_t] subtraction ([size_t_pred]).  Of
    [CalcTickMarkPositions] the assignment of a physical coordinate to each
    AxisPoint is modelled; the tick-mark vector is not part of the state. *)
Definition CalcLabelPositions (a : Axis) : Axis :=
  if IsVertical a then
    set_m_labelSpacingPhysicalOffset
      (safe_divide
         (inject_Z (Z.abs (y (GetBottomPoint a) - y (GetTopPoint a))))
         (inject_Z (size_t_pred (GetAxisPointsCount a)))) a
  else if IsHorizontal a then
    set_m_labelSpacingPhysicalOffset
      (safe_divide
         (inject_Z (Z.abs (x (GetRightPoint a) - x (GetLeftPoint a))))
         (inject_Z (size_t_pred (GetAxisPointsCount a)))) a
  else a.

Fixpoint assign_coordinates (coordinate : nat -> Q) (i : nat)
    (points : list AxisPoint) : list AxisPoint :=
  match points with
  | [] => []
  | p :: rest =>
      AxisPoint.SetPhysicalCoordinate p (coordinate i)
      :: assign_coordinates coordinate (S i) rest
  end.

Definition CalcTickMarkPositions (a : Axis) : Axis :=
  if IsVertical a then
    set_m_axisLabels
      (assign_coordinates
         (fun i =>
            (inject_Z (y (GetTopPoint a))
             + (inject_Z (y (GetBottomPoint a))
                - inject_Z (y (GetTopPoint a)))
             - GetLabelPhysicalOffset a * inject_Z (Z.of_nat i))%Q)
         0 (GetAxisPoints a)) a
  else if IsHorizontal a then
    set_m_axisLabels
      (assign_coordinates
         (fun i =>
            (inject_Z (x (GetLeftPoint a))
             + GetLabelPhysicalOffset a * inject_Z (Z.of_nat i))%Q)
         0 (GetAxisPoints a)) a
  else a.

(** *** [Axis::IsPointDisplayingLabel] and [Axis::GetDisplayableValue] *)
Definition IsPointDisplayingLabel (a : Axis) (point : AxisPoint) : bool :=
  if negb (AxisPoint.IsShown point) then false
  else
    let customLabel :=
      custom_labels_find (AxisPoint.GetValue point) (m_customAxisLabels a) in
    match customLabel with
    | None =>
        if AxisLabelDisplay_eqb (GetLabelDisplay a) DisplayOnlyCustomLabels
        then false
        else if (String.length (AxisPoint.GetDisplayValue point) =? 0)%nat
        then false
        else true
    | Some _ => true
    end.

Definition GetDisplayableValue (a : Axis) (pt : AxisPoint) : Label :=
  if negb (IsShowingLabels a)
  then Label.make EmptyString 1 (mkPadding 0 0 0 0)
  else
    let customLabel := GetCustomLabel a (AxisPoint.GetValue pt) in
    if AxisLabelDisplay_eqb (GetLabelDisplay a) DisplayCustomLabelsAndValues
    then
      Label.make
        (Label.GetText customLabel ++ "    " ++ AxisPoint.GetDisplayValue pt)
        1 (mkPadding 0 0 0 0)
    else if AxisLabelDisplay_eqb (GetLabelDisplay a) DisplayOnlyCustomLabels
            || (Label.IsOk customLabel
                && negb (String.length (Label.GetText customLabel) =? 0)%nat)
    then customLabel
    else Label.make (AxisPoint.GetDisplayValue pt) 1 (mkPadding 0 0 0 0).

(** *** [Axis::AdjustLabelSizeIfUsingBackgroundColor] *)
Definition AdjustLabelSizeIfUsingBackgroundColor (a : Axis)
    (axisLabel : Label) (useMaxWidth : bool) : Label :=
  if m_fontBackgroundColorIsSet a
     && AxisLabelOrientation_eqb (GetAxisLabelOrientation a) Parallel
  then
    let axisLabel :=
      if useMaxWidth then
        if IsHorizontal a
        then Label.SetMinimumUserSizeDIPs axisLabel
               (Some (ToDIP (m_maxLabelWidth a))) None
        else Label.SetMinimumUserSizeDIPs axisLabel
               None (Some (ToDIP (m_maxLabelWidth a)))
      else axisLabel in
    Label.SetPadding axisLabel
      (mkPadding (Z.max 4 (GetTopPadding (m_padding a)))
                 (Z.max 4 (GetRightPadding (m_padding a)))
                 (Z.max 4 (GetBottomPadding (m_padding a)))
                 (Z.max 4 (GetLeftPadding (m_padding a))))
  else axisLabel.

(** Number of points that display a label, less one when both outer labels
    hang half outside the plot (shared by [CalcMaxLabelWidth] and
    [ShouldLabelsBeStackedToFit]). *)
Definition displayedLabelsCount (a : Axis) : Z :=
  let count :=
    Z.of_nat
      (List.length (filter (IsPointDisplayingLabel a) (GetAxisPoints a))) in
  if (2 <? count) && (2 <? GetAxisPointsCount a) && IsShowingOuterLabels a
     && match hd_error (GetAxisPoints a) with
        | Some first =>
            AxisPoint.IsShown first
            && negb (String.length
                       (Label.GetText (GetDisplayableValue a first)) =? 0)%nat
        | None => false
        end
     && match hd_error (rev (GetAxisPoints a)) with
        | Some last =>
            AxisPoint.IsShown last
            && negb (String.length
                       (Label.GetText (GetDisplayableValue a last)) =? 0)%nat
        | None => false
        end
  then count - 1
  else count.

(** Pixel length of the axis line. *)
Definition axisPixelLength (a : Axis) : Z :=
  if IsVertical a
  then Z.abs (y (GetTopPoint a) - y (GetBottomPoint a))
  else Z.abs (x (GetBottomPoint a) - x (GetTopPoint a)).

(** *** [Axis::CalcMaxLabelWidth] *)
Definition CalcMaxLabelWidth (a : Axis) : Axis :=
  let plotSize := axisPixelLength a in
  let width :=
    safe_divide_int plotSize (displayedLabelsCount a)
    - ScaleToScreenAndCanvas a 2 in
  let width := if IsStackingLabels a then width * 2 else width in
  invalidate_cached_labels (set_m_maxLabelWidth width a).

(** *** [Axis::GetWidestTextLabel] and [Axis::GetTallestTextLabel]

    Both are [const] members that refresh a [mutable] cache, so they return
    the label together with the axis. *)
Definition largest_label (a : Axis) (extent : wxSize -> Z) : Label :=
  let currentLabel :=
    Label.make EmptyString (GetAxisLabelScaling a) (m_padding a) in
  fst
    (fold_left
       (fun (best : Label * Z) axisPt =>
          if IsPointDisplayingLabel a axisPt then
            let currentLabel :=
              Label.SetText currentLabel
                (Label.GetText (GetDisplayableValue a axisPt)) in
            let size := extent (GetBoundingBox currentLabel) in
            if snd best <? size then (currentLabel, size) else best
          else best)
       (GetAxisPoints a)
       (Label.make EmptyString 1 (mkPadding 0 0 0 0), 0)).

Definition GetWidestTextLabel (a : Axis) : Label * Axis :=
  let a :=
    set_m_widestLabel
      (Label.SetScaling (m_widestLabel a) (GetAxisLabelScaling a)) a in
  if Label.IsOk (m_widestLabel a) then (m_widestLabel a, a)
  else
    let a := set_m_widestLabel Label.invalid a in
    if GetAxisPointsCount a =? 0 then (m_widestLabel a, a)
    else
      let a := set_m_widestLabel (largest_label a GetWidth) a in
      (m_widestLabel a, a).

Definition GetTallestTextLabel (a : Axis) : Label * Axis :=
  let a :=
    set_m_tallestLabel
      (Label.SetScaling (m_tallestLabel a) (GetAxisLabelScaling a)) a in
  if Label.IsOk (m_tallestLabel a) then (m_tallestLabel a, a)
  else
    let a := set_m_tallestLabel Label.invalid a in
    if GetAxisPointsCount a =? 0 then (m_tallestLabel a, a)
    else
      let a := set_m_tallestLabel (largest_label a GetHeight) a in
      (m_tallestLabel a, a).

(** *** [Axis::CalcBestScalingToFitLabels]

    The search loop
    [while (currentScaling > 1.0 && extent > m_maxLabelWidth)] over the
    state [(currentScaling, label, extent)]: each turn lowers the scaling by
    [0.1], rescales the label and measures it again. *)
Definition scaling_loop_state : Type := (Q * Label * Z)%type.

Definition scaling_loop_cond (maxLabelWidth : Z) (s : scaling_loop_state)
    : bool :=
  let '(currentScaling, _, extent) := s in
  Qlt_bool 1 currentScaling && (maxLabelWidth <? extent).

Definition scaling_loop_body (extent : wxSize -> Z)
    (s : scaling_loop_state) : scaling_loop_state :=
  let '(currentScaling, label, _) := s in
  let currentScaling := (currentScaling - (1 # 10))%Q in
  let label := Label.SetScaling label currentScaling in
  (currentScaling, label, extent (GetBoundingBox label)).

Definition scaling_loop_bound (currentScaling : Q) : nat :=
  Z.to_nat (Qceiling ((currentScaling - 1) / (1 # 10))).

Definition CalcBestScalingToFitLabels (a : Axis) : Q * Axis :=
  if GetAxisPointsCount a =? 0 then (GetScaling a, a)
  else
    let a := CalcMaxLabelWidth a in
    if m_maxLabelWidth a <=? 0
    then (GetScaling a, set_m_axisLabelScaling (GetScaling a) a)
    else
      let currentScaling := GetAxisLabelScaling a in
      let '(label, a, extent) :=
        match GetAxisLabelOrientation a with
        | Parallel =>
            let '(l, a) := GetWidestTextLabel a in (l, a, GetWidth)
        | Perpendicular =>
            let '(l, a) := GetTallestTextLabel a in (l, a, GetHeight)
        end in
      let '(currentScaling, _, _) :=
        iter_while (scaling_loop_bound currentScaling)
          (scaling_loop_cond (m_maxLabelWidth a))
          (scaling_loop_body extent)
          (currentScaling, label, extent (GetBoundingBox label)) in
      let a := set_m_axisLabelScaling (std_max 1 currentScaling) a in
      (GetAxisLabelScaling a, a).

(** *** [Axis::SetPoints] *)
Definition SetPoints (a : Axis) (pt1 pt2 : wxPoint) : Axis :=
  let a :=
    if IsVertical a then
      if y pt1 <? y pt2 then set_m_points (pt1, pt2) a
      else set_m_points (pt2, pt1) a
    else
      if x pt1 <? x pt2 then set_m_points (pt1, pt2) a
      else set_m_points (pt2, pt1) a in
  let a := CalcLabelPositions a in
  let a := CalcTickMarkPositions a in
  snd (CalcBestScalingToFitLabels a).

(** *** [Axis::ShouldLabelsBeStackedToFit] *)
Fixpoint any_label_too_wide (a : Axis) (axisLabel : Label)
    (maxTextSize : Z) (isFirst : bool) (points : list AxisPoint) : bool :=
  match points with
  | [] => false
  | pos :: rest =>
      let isLast := match rest with [] => true | _ => false end in
      if IsPointDisplayingLabel a pos then
        let axisLabel :=
          Label.SetText axisLabel
            (Label.GetText (GetDisplayableValue a pos)) in
        let labelSize := GetBoundingBox axisLabel in
        let axisTextWidth :=
          match GetAxisLabelOrientation a with
          | Perpendicular => GetHeight labelSize
          | Parallel => GetWidth labelSize
          end in
        let axisTextWidth :=
          if IsShowingOuterLabels a && (isFirst || isLast)
          then Z.quot axisTextWidth 2
          else axisTextWidth in
        if maxTextSize <=? axisTextWidth then true
        else any_label_too_wide a axisLabel maxTextSize false rest
      else any_label_too_wide a axisLabel maxTextSize false rest
  end.

Definition ShouldLabelsBeStackedToFit (a : Axis) : bool :=
  if negb (IsAutoStackingEnabled a) then IsStackingLabels a
  else
    let axisWidth := axisPixelLength a in
    let isMeasuringByHeight :=
      AxisLabelOrientation_eqb (GetAxisLabelOrientation a) Perpendicular in
    let maxTextSize :=
      double_to_int
        (inject_Z (safe_divide_int axisWidth (displayedLabelsCount a))
         - (if isMeasuringByHeight then 2 * GetScaling a else 0))%Q in
    if maxTextSize <=? 0 then false
    else
      let axisLabel :=
        AdjustLabelSizeIfUsingBackgroundColor a
          (Label.make EmptyString (GetScaling a) (m_padding a)) true in
      any_label_too_wide a axisLabel maxTextSize true (GetAxisPoints a).

(** *** [Axis::SetDisplayInterval]

    The second loop, [for (i = 0 + offset; i < size; i += m_displayInterval)],
    runs over the state [(i, labels)]; [None] is a loop that is still
    running when the fuel is spent. *)
Fixpoint show_at (n : nat) (show : bool) (l : list AxisPoint)
    : list AxisPoint :=
  match l, n with
  | [], _ => []
  | p :: rest, O => AxisPoint.SetShown p show :: rest
  | p :: rest, S n' => p :: show_at n' show rest
  end.

Definition display_loop_cond (s : Z * list AxisPoint) : bool :=
  fst s <? Z.of_nat (List.length (snd s)).

Definition display_loop_body (displayInterval : Z)
    (s : Z * list AxisPoint) : Z * list AxisPoint :=
  (to_size_t (fst s + displayInterval),
   show_at (Z.to_nat (fst s)) true (snd s)).

Definition SetDisplayInterval (fuel : nat) (a : Axis)
    (interval offset : Z) : option Axis :=
  let a := set_m_displayInterval interval a in
  let hidden := map (fun p => AxisPoint.SetShown p false) (m_axisLabels a) in
  match while_fuel fuel display_loop_cond
          (display_loop_body (m_displayInterval a))
          (to_size_t (0 + offset), hidden) with
  | None => None
  | Some (_, labels) =>
      Some (invalidate_cached_labels (set_m_axisLabels labels a))
  end.

(** *** Sequences of calls

    The mutating members above as a small command language, so that
    properties of every state a client can reach are statements about
    [run].  [SetDisplayInterval] carries the fuel of its loop; a command
    that does not return makes the whole run [None]. *)
Inductive AxisOp : Type :=
  | OpReset (level : AxisResetLevel)
  | OpSetRange (rangeStart rangeEnd : Q) (precision : Z) (interval : Q)
      (displayInterval : Z)
  | OpSetRangeAuto (rangeStart rangeEnd : Q) (precision : Z)
      (includeExtraInterval : bool)
  | OpSetCustomLabel (tickValue : Q) (label : Label)
  | OpReverseScale (reverse : bool)
  | OpSetAxisLabelOrientation (orient : AxisLabelOrientation)
  | OpAddUnevenAxisPoint (value : Q) (label : string)
  | OpAdjustRangeToLabels
  | OpSetPoints (pt1 pt2 : wxPoint)
  | OpSetDisplayInterval (fuel : nat) (interval offset : Z).

Definition apply_op (a : Axis) (op : AxisOp) : option Axis :=
  match op with
  | OpReset level => Some (Reset a level)
  | OpSetRange s e p i d => Some (SetRange a s e p i d)
  | OpSetRangeAuto s e p extra => Some (SetRange_auto a s e p extra)
  | OpSetCustomLabel v l => Some (SetCustomLabel a v l)
  | OpReverseScale r => Some (ReverseScale a r)
  | OpSetAxisLabelOrientation o => Some (SetAxisLabelOrientation a o)
  | OpAddUnevenAxisPoint v l => Some (AddUnevenAxisPoint a v l)
  | OpAdjustRangeToLabels => Some (AdjustRangeToLabels a)
  | OpSetPoints pt1 pt2 => Some (SetPoints a pt1 pt2)
  | OpSetDisplayInterval fuel i o => SetDisplayInterval fuel a i o
  end.

Fixpoint run (a : Axis) (ops : list AxisOp) : option Axis :=
  match ops with
  | [] => Some a
  | op :: rest =>
      match apply_op a op with
      | Some a' => run a' rest
      | None => None
      end
  end.


End Model.

(** ** Specification vocabulary *)

(** The values of a collection of points, in order. *)
Definition values (points : list AxisPoint) : list Q :=
  map AxisPoint.GetValue points.

(** The physical coordinates of a collection of points, in order. *)
Definition coordinates (points : list AxisPoint) : list Q :=
  map AxisPoint.GetPhysicalCoordinate points.

(** The bracketing pair of a linear search: the first point that satisfies
    [f], with its predecessor when there is one. *)
Fixpoint locate (f : AxisPoint -> bool) (prev : option AxisPoint)
    (points : list AxisPoint) : option (option AxisPoint * AxisPoint) :=
  match points with
  | [] => None
  | p :: rest => if f p then Some (prev, p) else locate f (Some p) rest
  end.

(** What [GetPhysicalCoordinate] answers once the search has found its
    bracketing pair: the coordinate of the found point on a match, the
    interpolation when there is a previous line, a failure otherwise. *)
Definition resolve_coordinate (delta : Q) (a : Axis) (value : Q)
    (found : option (option AxisPoint * AxisPoint)) : bool * Z :=
  match found with
  | None => (false, -1)
  | Some (prev, p) =>
      if AxisPoint_eq delta p value
      then (true, double_to_int (AxisPoint.GetPhysicalCoordinate p))
      else
        match prev with
        | None => (false, -1)
        | Some q => interpolate_coordinate a q p value
        end
  end.

(** The same for [GetValueFromPhysicalCoordinate]. *)
Definition resolve_value (a : Axis) (coordinate : Z)
    (found : option (option AxisPoint * AxisPoint)) : bool * Q :=
  match found with
  | None => (false, (-1)%Q)
  | Some (prev, p) =>
      if Qeq_bool (inject_Z coordinate) (AxisPoint.GetPhysicalCoordinate p)
      then (true, AxisPoint.GetValue p)
      else
        match prev with
        | None => (false, (-1)%Q)
        | Some q => interpolate_value a q p coordinate
        end
  end.



(** Pixel order of a vertical axis: the larger row comes first. *)
Definition Qge_rev (c d : Q) : Prop := (d <= c)%Q.

(** The pixel line [SetPoints] stores, read along the axis: its smaller and
    its larger coordinate, the spacing [CalcLabelPositions] derives from it
    and the coordinate [CalcTickMarkPositions] gives the [i]-th point. *)
Definition line_start (a : Axis) (pt1 pt2 : wxPoint) : Z :=
  if IsVertical a
  then (if y pt1 <? y pt2 then y pt1 else y pt2)
  else (if x pt1 <? x pt2 then x pt1 else x pt2).

Definition line_end (a : Axis) (pt1 pt2 : wxPoint) : Z :=
  if IsVertical a
  then (if y pt1 <? y pt2 then y pt2 else y pt1)
  else (if x pt1 <? x pt2 then x pt2 else x pt1).

Definition label_offset (a : Axis) (pt1 pt2 : wxPoint) : Q :=
  safe_divide
    (inject_Z (Z.abs (line_end a pt1 pt2 - line_start a pt1 pt2)))
    (inject_Z (size_t_pred (GetAxisPointsCount a))).

Definition point_coordinate (a : Axis) (pt1 pt2 : wxPoint) (i : nat) : Q :=
  if IsVertical a
  then (inject_Z (line_start a pt1 pt2)
        + (inject_Z (line_end a pt1 pt2) - inject_Z (line_start a pt1 pt2))
        - label_offset a pt1 pt2 * inject_Z (Z.of_nat i))%Q
  else (inject_Z (line_start a pt1 pt2)
        + label_offset a pt1 pt2 * inject_Z (Z.of_nat i))%Q.

(** Two axes that agree on everything the coordinate mapping and the range
    bookkeeping look at. *)
Definition same_layout (a b : Axis) : Prop :=
  m_type a = m_type b
  /\ m_axisLabels a = m_axisLabels b
  /\ m_customAxisLabels a = m_customAxisLabels b
  /\ m_rangeStart a = m_rangeStart b
  /\ m_rangeEnd a = m_rangeEnd b
  /\ m_scaledReserved a = m_scaledReserved b
  /\ m_points a = m_points b.


(** The points are in the order the direction of the axis asks for: values
    ascending, or descending on a reversed axis. *)
Definition ordered (a : Axis) : Prop :=
  StronglySorted (if IsReversed a then Qge_rev else Qle)
    (values (GetAxisPoints a)).

(** ** Concrete instances

    A tolerance, a formatter and a text-measurement service to run the model
    on, and a default axis: the state [Reset] leaves behind at [AllSettings],
    with unit scalings and the endpoints at the origin. *)

Definition demo_delta : Q := 1 # 1000000.

Definition demo_ToString (value : Q) (precision : Z) : string := "0"%string.

Definition demo_GetBoundingBox (l : Label) : wxSize := mkSize 30 12.

Definition demo_ScaleToScreenAndCanvas (a : Axis) (v : Z) : Z := v.


Definition demo_ToDIP (v : Z) : Z := v.

Definition default_axis (t : AxisType) : Axis :=
  mkAxis t [] [] 0 0 0 1 1 1 false false Label.invalid Label.invalid
    (mkPoint 0 0, mkPoint 0 0) 0 false
    (match t with BottomXAxis | TopXAxis => true | _ => false end)
    Parallel DisplayCustomLabelsOrValues true true 1 1 0
    (mkPadding 0 0 0 0) false.

Definition demo_SetRange := SetRange demo_ToString.
Definition demo_SetPoints :=
  SetPoints demo_GetBoundingBox demo_ScaleToScreenAndCanvas.

(** A bottom axis over [0, 2] in steps of one, drawn from pixel 0 to 5. *)
Definition axis_0_2_on_5px : Axis :=
  demo_SetPoints (demo_SetRange (default_axis BottomXAxis) 0 2 0 1 1)
    (mkPoint 0 0) (mkPoint 5 0).

(** A bottom axis over [0, 10] in steps of five, drawn from pixel 0 to 100. *)
Definition axis_0_10_on_100px : Axis :=
  demo_SetPoints (demo_SetRange (default_axis BottomXAxis) 0 10 0 5 1)
    (mkPoint 0 0) (mkPoint 100 0).


(** A reversed bottom axis over [0, 10] in steps of five on 100 pixels. *)
Definition reversed_axis_0_10_on_100px : Axis :=
  demo_SetPoints
    (demo_SetRange (ReverseScale (default_axis BottomXAxis) true) 0 10 0 5 1)
    (mkPoint 0 0) (mkPoint 100 0).

(** A bottom axis over [0, 9] in steps of one on 200 pixels: ten labels, each
    measured at 30 pixels by [demo_GetBoundingBox]. *)
Definition axis_0_9_on_200px : Axis :=
  demo_SetPoints (demo_SetRange (default_axis BottomXAxis) 0 9 0 1 1)
    (mkPoint 0 0) (mkPoint 200 0).



(** * Properties *)

(** ** Numbers *)

Lemma Qlt_bool_true (x y : Q) : Qlt_bool x y = true <-> (x < y)%Q.
Proof.
  unfold Qlt_bool. rewrite negb_true_iff. split; intro H.
  - apply Qnot_le_lt. intro Hle. apply Qle_bool_iff in Hle. congruence.
  - destruct (Qle_bool y x) eqn:E; [|reflexivity].
    apply Qle_bool_iff in E. exfalso. apply (Qlt_not_le _ _ H E).
Qed.

Lemma Qlt_bool_false (x y : Q) : Qlt_bool x y = false <-> (y <= x)%Q.
Proof.
  unfold Qlt_bool. rewrite negb_false_iff. apply Qle_bool_iff.
Qed.

Lemma Qle_bool_false (x y : Q) : Qle_bool x y = false <-> (y < x)%Q.
Proof.
  split; intro H.
  - apply Qnot_le_lt. intro Hle. apply Qle_bool_iff in Hle. congruence.
  - destruct (Qle_bool x y) eqn:E; [|reflexivity].
    apply Qle_bool_iff in E. exfalso. apply (Qlt_not_le _ _ H E).
Qed.

Lemma Qeq_bool_false (x y : Q) : Qeq_bool x y = false <-> ~ (x == y)%Q.
Proof.
  split; intro H.
  - intro E. apply Qeq_bool_iff in E. congruence.
  - destruct (Qeq_bool x y) eqn:E; [|reflexivity].
    apply Qeq_bool_iff in E. contradiction.
Qed.

Lemma double_to_int_inject (z : Z) : double_to_int (inject_Z z) = z.
Proof.
  unfold double_to_int. destruct (Qle_bool 0 (inject_Z z));
    [apply Qfloor_Z | apply Qceiling_Z].
Qed.

Lemma double_to_int_mono (p q : Q) :
  (p <= q)%Q -> double_to_int p <= double_to_int q.
Proof.
  intro H. unfold double_to_int.
  destruct (Qle_bool 0 p) eqn:Ep; destruct (Qle_bool 0 q) eqn:Eq.
  - now apply Qfloor_resp_le.
  - apply Qle_bool_iff in Ep. apply Qle_bool_false in Eq. lra.
  - apply Qle_bool_false in Ep. apply Qle_bool_iff in Eq.
    assert (Hp : Qceiling p <= 0).
    { change 0 with (Qceiling (inject_Z 0)). apply Qceiling_resp_le.
      change (inject_Z 0) with 0%Q. lra. }
    assert (Hq : 0 <= Qfloor q).
    { change 0 with (Qfloor (inject_Z 0)). apply Qfloor_resp_le.
      now change (inject_Z 0) with 0%Q. }
    lia.
  - now apply Qceiling_resp_le.
Qed.



Lemma same_layout_refl (a : Axis) : same_layout a a.
Proof. now repeat split. Qed.

Lemma same_layout_trans (a b c : Axis) :
  same_layout a b -> same_layout b c -> same_layout a c.
Proof.
  unfold same_layout. intros H1 H2.
  decompose [and] H1. decompose [and] H2. repeat split; congruence.
Qed.

(** ** Loops *)

Lemma iter_while_exit {S : Type} (n : nat) (cond : S -> bool)
    (body : S -> S) (s : S) :
  cond s = false -> iter_while n cond body s = s.
Proof.
  intro H. destruct n; simpl; [reflexivity | now rewrite H].
Qed.

Lemma while_fuel_stuck {S : Type} (cond : S -> bool) (body : S -> S) (s : S) :
  cond s = true -> body s = s ->
  forall fuel, while_fuel fuel cond body s = None.
Proof.
  intros Hc Hb fuel. induction fuel as [|fuel IH]; simpl; rewrite Hc.
  - reflexivity.
  - now rewrite Hb.
Qed.

Lemma while_fuel_iter_while {S : Type} (n : nat) (cond : S -> bool)
    (body : S -> S) (s : S) :
  cond (iter_while n cond body s) = false ->
  while_fuel n cond body s = Some (iter_while n cond body s).
Proof.
  revert s. induction n as [|n IH]; intros s H; simpl in *.
  - now rewrite H.
  - destruct (cond s) eqn:E; [now apply IH | reflexivity].
Qed.

(** ** Frame facts: what the setters leave alone *)

Lemma GetPhysicalCoordinate_ext (delta : Q) (a b : Axis) (value : Q) :
  m_axisLabels a = m_axisLabels b ->
  m_scaledReserved a = m_scaledReserved b ->
  m_type a = m_type b ->
  GetPhysicalCoordinate delta a value = GetPhysicalCoordinate delta b value.
Proof.
  intros Hl Hr Ht.
  unfold GetPhysicalCoordinate, interpolate_coordinate, GetAxisPointsCount,
    GetAxisPoints, IsReversed, IsHorizontal, IsVertical.
  now rewrite Hl, Hr, Ht.
Qed.

Lemma GetValueFromPhysicalCoordinate_ext (a b : Axis) (coordinate : Z) :
  m_axisLabels a = m_axisLabels b ->
  m_type a = m_type b ->
  GetValueFromPhysicalCoordinate a coordinate
  = GetValueFromPhysicalCoordinate b coordinate.
Proof.
  intros Hl Ht.
  unfold GetValueFromPhysicalCoordinate, interpolate_value, pixel_search,
    GetAxisPointsCount, GetAxisPoints, IsHorizontal, IsVertical.
  now rewrite Hl, Ht.
Qed.

(** ** [ReverseScale] *)

Lemma ReverseScale_twice_labels (a : Axis) :
  IsReversed a = false ->
  m_axisLabels (ReverseScale (ReverseScale a true) false) = m_axisLabels a.
Proof.
  unfold ReverseScale, IsReversed. intro H. rewrite H. simpl.
  apply rev_involutive.
Qed.

(** ** [SetDisplayInterval] *)

Lemma show_at_length (n : nat) (show : bool) (l : list AxisPoint) :
  List.length (show_at n show l) = List.length l.
Proof.
  revert n. induction l as [|p l IH]; intros [|n]; simpl; auto.
Qed.

Lemma show_at_idempotent (n : nat) (show : bool) (l : list AxisPoint) :
  show_at n show (show_at n show l) = show_at n show l.
Proof.
  revert n. induction l as [|p l IH]; intros [|n]; simpl; auto.
  now rewrite IH.
Qed.

Lemma to_size_t_range (z : Z) : 0 <= to_size_t z < size_t_modulus.
Proof. unfold to_size_t, size_t_modulus. apply Z.mod_pos_bound. lia. Qed.

Lemma to_size_t_small (z : Z) :
  0 <= z < size_t_modulus -> to_size_t z = z.
Proof. intro H. unfold to_size_t. now apply Z.mod_small. Qed.

Lemma display_loop_zero_interval_diverges (i : Z) (l : list AxisPoint) :
  0 <= i < size_t_modulus ->
  i < Z.of_nat (List.length l) ->
  forall fuel,
    while_fuel fuel display_loop_cond (display_loop_body 0) (i, l) = None.
Proof.
  intros Hi Hlt fuel.
  assert (Hc : forall l', List.length l' = List.length l ->
                          display_loop_cond (i, l') = true).
  { intros l' Hl. unfold display_loop_cond. simpl. rewrite Hl.
    now apply Z.ltb_lt. }
  destruct fuel as [|fuel]; simpl; rewrite (Hc l eq_refl); [reflexivity|].
  apply while_fuel_stuck.
  - unfold display_loop_body. simpl. rewrite Z.add_0_r, to_size_t_small by easy.
    apply Hc. apply show_at_length.
  - unfold display_loop_body. simpl.
    rewrite !Z.add_0_r. rewrite !(to_size_t_small i) by easy.
    now rewrite show_at_idempotent.
Qed.

Lemma SetDisplayInterval_zero_interval_diverges (a : Axis) (offset : Z) :
  to_size_t offset < GetAxisPointsCount a ->
  forall fuel, SetDisplayInterval fuel a 0 offset = None.
Proof.
  intros H fuel. unfold SetDisplayInterval. simpl.
  rewrite display_loop_zero_interval_diverges; [reflexivity | |].
  - apply to_size_t_range.
  - now rewrite length_map.
Qed.

Lemma display_loop_terminates (interval : Z) :
  0 < interval ->
  forall fuel i (l : list AxisPoint),
    0 <= i ->
    Z.of_nat (List.length l) + interval <= size_t_modulus ->
    Z.of_nat (List.length l) - i <= Z.of_nat fuel ->
    exists s,
      while_fuel fuel display_loop_cond (display_loop_body interval) (i, l)
      = Some s
      /\ List.length (snd s) = List.length l.
Proof.
  intros Hpos fuel. induction fuel as [|fuel IH]; intros i l Hi Hfit Hfuel.
  - simpl. unfold display_loop_cond. simpl.
    destruct (Z.ltb_spec i (Z.of_nat (List.length l))); [lia|].
    now exists (i, l).
  - simpl. unfold display_loop_cond at 1. simpl.
    destruct (Z.ltb_spec i (Z.of_nat (List.length l))) as [Hlt|Hge].
    + unfold display_loop_body at 2. simpl.
      rewrite to_size_t_small by lia.
      destruct (IH (i + interval) (show_at (Z.to_nat i) true l))
        as [s [Hs Hlen]]; rewrite ?show_at_length; try lia.
      exists s. split; [exact Hs|]. now rewrite Hlen, show_at_length.
    + now exists (i, l).
Qed.

(** With a positive interval (and no [size_t] overflow of [i]) the stride
    loop of [SetDisplayInterval] returns within [size] iterations. *)
Lemma SetDisplayInterval_positive_interval_returns (a : Axis)
    (interval offset : Z) :
  0 < interval ->
  0 <= offset < size_t_modulus ->
  GetAxisPointsCount a + interval <= size_t_modulus ->
  exists a',
    SetDisplayInterval (List.length (m_axisLabels a)) a interval offset
    = Some a'.
Proof.
  intros Hpos Hoff Hfit. unfold SetDisplayInterval. simpl.
  rewrite to_size_t_small by easy.
  destruct (display_loop_terminates interval Hpos
              (List.length (m_axisLabels a)) offset
              (map (fun p => AxisPoint.SetShown p false) (m_axisLabels a)))
    as [[i l] [Hs _]]; rewrite ?length_map; try lia.
  - exact Hfit.
  - rewrite Hs. eauto.
Qed.

(** ** The label-scaling search *)

Lemma scaling_loop_exits (maxLabelWidth : Z)
    (GetBoundingBox : Label -> wxSize) (extent : wxSize -> Z) :
  forall n currentScaling label e,
    ((currentScaling - 1) / (1 # 10) <= inject_Z (Z.of_nat n))%Q ->
    scaling_loop_cond maxLabelWidth
      (iter_while n (scaling_loop_cond maxLabelWidth)
         (scaling_loop_body GetBoundingBox extent)
         (currentScaling, label, e)) = false.
Proof.
  induction n as [|n IH]; intros cur label e Hn.
  - simpl. apply andb_false_iff. left. apply Qlt_bool_false.
    change (inject_Z (Z.of_nat 0)) with 0%Q in Hn.
    assert (H : ((cur - 1) / (1 # 10) == (cur - 1) * 10)%Q) by (field).
    rewrite H in Hn. lra.
  - cbn [iter_while].
    destruct (scaling_loop_cond maxLabelWidth (cur, label, e)) eqn:E;
      [|exact E].
    unfold scaling_loop_body at 2. apply IH.
    rewrite Nat2Z.inj_succ, <- Z.add_1_r, inject_Z_plus in Hn.
    change (inject_Z 1) with 1%Q in Hn.
    assert (H : forall c : Q, (c / (1 # 10) == c * 10)%Q) by (intro; field).
    rewrite H in *. lra.
Qed.

(** The search loop of [CalcBestScalingToFitLabels] stops by its own
    condition within [scaling_loop_bound] turns, whatever the labels measure. *)
Lemma scaling_loop_terminates (maxLabelWidth : Z)
    (GetBoundingBox : Label -> wxSize) (extent : wxSize -> Z)
    (currentScaling : Q) (label : Label) (e : Z) :
  exists s,
    while_fuel (scaling_loop_bound currentScaling)
      (scaling_loop_cond maxLabelWidth)
      (scaling_loop_body GetBoundingBox extent) (currentScaling, label, e)
    = Some s
    /\ scaling_loop_cond maxLabelWidth s = false.
Proof.
  assert (H :
    scaling_loop_cond maxLabelWidth
      (iter_while (scaling_loop_bound currentScaling)
         (scaling_loop_cond maxLabelWidth)
         (scaling_loop_body GetBoundingBox extent)
         (currentScaling, label, e)) = false).
  { destruct (Qlt_le_dec 1 currentScaling) as [Hgt|Hle].
    - apply scaling_loop_exits. unfold scaling_loop_bound.
      rewrite Z2Nat.id.
      + apply Qle_ceiling.
      + change 0 with (Qceiling (inject_Z 0)). apply Qceiling_resp_le.
        change (inject_Z 0) with 0%Q.
        assert (E : ((currentScaling - 1) / (1 # 10)
                     == (currentScaling - 1) * 10)%Q) by field.
        rewrite E. lra.
    - rewrite iter_while_exit; apply andb_false_iff; left;
        now apply Qlt_bool_false. }
  eexists. split; [now apply while_fuel_iter_while | exact H].
Qed.

(** ** The point-generating loops of [SetRange] *)

Section RangeLoops.

Variable ToString : Q -> Z -> string.
Variables precision displayInterval : Z.
Variables limit interval : Q.
Hypothesis interval_pos : (0 < interval)%Q.

Let ascending_loop (n : nat) (s : range_loop_state) : range_loop_state :=
  iter_while n (fun s => Qlt_bool (range_loop_i s) limit)
    (range_loop_body ToString precision interval displayInterval) s.

Let descending_loop (n : nat) (s : range_loop_state) : range_loop_state :=
  iter_while n (fun s => Qlt_bool limit (range_loop_i s))
    (range_loop_body ToString precision (- interval) displayInterval) s.

Lemma ascending_loop_spec (n : nat) :
  forall i cdi labels last,
    (limit - i <= inject_Z (Z.of_nat n) * interval)%Q ->
    exists generated,
      range_loop_labels (ascending_loop n (i, cdi, labels, last))
      = labels ++ generated
      /\ StronglySorted Qlt (values generated)
      /\ Forall (fun v => (i <= v /\ v < limit)%Q) (values generated)
      /\ ((i < limit)%Q ->
          let last' :=
            range_loop_last (ascending_loop n (i, cdi, labels, last)) in
          (limit <= last' + interval /\ i <= last' /\ last' < limit)%Q)
      /\ ((limit <= i)%Q ->
          range_loop_last (ascending_loop n (i, cdi, labels, last)) = last
          /\ generated = []).
Proof.
  unfold ascending_loop.
  induction n as [|n IH]; intros i cdi labels last Hn.
  - change (inject_Z (Z.of_nat 0)) with 0%Q in Hn.
    exists []. simpl. rewrite app_nil_r.
    repeat split; try constructor; intros; try reflexivity; lra.
  - cbn [iter_while]. cbn [range_loop_i].
    destruct (Qlt_bool i limit) eqn:E.
    + apply Qlt_bool_true in E.
      unfold range_loop_body at 2.
      rewrite Nat2Z.inj_succ, <- Z.add_1_r, inject_Z_plus in Hn.
      change (inject_Z 1) with 1%Q in Hn.
      destruct (IH (i + interval)%Q
                   (if cdi =? 1 then displayInterval
                    else to_size_t (cdi - 1))
                   (labels ++ [AxisPoint.make i (ToString i precision)
                                 (cdi =? 1)]) i)
        as [gen [Hl [Hs [Hb [Hlt Hge]]]]]; [lra|].
      exists (AxisPoint.make i (ToString i precision) (cdi =? 1) :: gen).
      split; [now rewrite Hl, <- app_assoc|].
      split.
      { simpl. constructor; [exact Hs|].
        eapply Forall_impl; [|exact Hb]. simpl. intros v Hv. lra. }
      split.
      { simpl. constructor; [simpl; lra|].
        eapply Forall_impl; [|exact Hb]. simpl. intros v Hv. lra. }
      split.
      { intros _. simpl.
        destruct (Qlt_le_dec (i + interval) limit) as [H1|H1].
        - specialize (Hlt H1). simpl in Hlt. lra.
        - destruct (Hge H1) as [Hlast _]. rewrite Hlast. lra. }
      intro Hc. lra.
    + apply Qlt_bool_false in E. exists []. rewrite app_nil_r.
      repeat split; try constructor; intros; simpl; try reflexivity; lra.
Qed.

Lemma descending_loop_spec (n : nat) :
  forall i cdi labels last,
    (i - limit <= inject_Z (Z.of_nat n) * interval)%Q ->
    exists generated,
      range_loop_labels (descending_loop n (i, cdi, labels, last))
      = labels ++ generated
      /\ StronglySorted (fun v w => (w < v)%Q) (values generated)
      /\ Forall (fun v => (limit < v /\ v <= i)%Q) (values generated)
      /\ ((limit < i)%Q ->
          let last' :=
            range_loop_last (descending_loop n (i, cdi, labels, last)) in
          (last' - interval <= limit /\ last' <= i /\ limit < last')%Q)
      /\ ((i <= limit)%Q ->
          range_loop_last (descending_loop n (i, cdi, labels, last)) = last
          /\ generated = []).
Proof.
  unfold descending_loop.
  induction n as [|n IH]; intros i cdi labels last Hn.
  - change (inject_Z (Z.of_nat 0)) with 0%Q in Hn.
    exists []. simpl. rewrite app_nil_r.
    repeat split; try constructor; intros; try reflexivity; lra.
  - cbn [iter_while]. cbn [range_loop_i].
    destruct (Qlt_bool limit i) eqn:E.
    + apply Qlt_bool_true in E.
      unfold range_loop_body at 2.
      rewrite Nat2Z.inj_succ, <- Z.add_1_r, inject_Z_plus in Hn.
      change (inject_Z 1) with 1%Q in Hn.
      destruct (IH (i + - interval)%Q
                   (if cdi =? 1 then displayInterval
                    else to_size_t (cdi - 1))
                   (labels ++ [AxisPoint.make i (ToString i precision)
                                 (cdi =? 1)]) i)
        as [gen [Hl [Hs [Hb [Hlt Hge]]]]]; [lra|].
      exists (AxisPoint.make i (ToString i precision) (cdi =? 1) :: gen).
      split; [now rewrite Hl, <- app_assoc|].
      split.
      { simpl. constructor; [exact Hs|].
        eapply Forall_impl; [|exact Hb]. simpl. intros v Hv. lra. }
      split.
      { simpl. constructor; [simpl; lra|].
        eapply Forall_impl; [|exact Hb]. simpl. intros v Hv. lra. }
      split.
      { intros _. simpl.
        destruct (Qlt_le_dec limit (i + - interval)) as [H1|H1].
        - specialize (Hlt H1). simpl in Hlt. lra.
        - destruct (Hge H1) as [Hlast _]. rewrite Hlast. lra. }
      intro Hc. lra.
    + apply Qlt_bool_false in E. exists []. rewrite app_nil_r.
      repeat split; try constructor; intros; simpl; try reflexivity; lra.
Qed.

(** The iteration bound computed from the distance covers the loop. *)
Lemma range_loop_bound_enough (distance : Q) :
  (distance
   <= inject_Z (Z.of_nat (range_loop_bound distance interval)) * interval)%Q.
Proof.
  unfold range_loop_bound.
  destruct (Qlt_le_dec 0 distance) as [Hpos|Hneg].
  - rewrite Z2Nat.id.
    + assert (H := Qle_ceiling (distance / interval)).
      assert (E : (distance == distance / interval * interval)%Q)
        by (field; lra).
      apply Qle_trans with (distance / interval * interval)%Q.
      * rewrite <- E. apply Qle_refl.
      * apply Qmult_le_compat_r; [exact H | lra].
    + change 0 with (Qceiling (inject_Z 0)). apply Qceiling_resp_le.
      change (inject_Z 0) with 0%Q.
      apply Qle_shift_div_l; [exact interval_pos | lra].
  - assert (H : (0 <= inject_Z (Z.of_nat
                    (Z.to_nat (Qceiling (distance / interval)))))%Q).
    { change 0%Q with (inject_Z 0). rewrite <- Zle_Qle. lia. }
    nra.
Qed.

End RangeLoops.

(** ** [SetRange] *)

Lemma safe_divide_half (q : Q) : (2 * safe_divide q 2 == q)%Q.
Proof.
  unfold safe_divide. destruct (Qeq_bool q 0) eqn:E; simpl.
  - apply Qeq_bool_iff in E. rewrite E. reflexivity.
  - field.
Qed.

(** After [SetRange_resolve] either the interval is positive and the range is
    in order, or (a degenerate request with a negative interval) the loops
    have nothing to do. *)
Lemma SetRange_resolve_cases (s e iv : Q) :
  (s <= e)%Q ->
  exists s' e' iv',
    SetRange_resolve s e iv = (s', e', iv')
    /\ (((0 < iv')%Q /\ (s' <= e')%Q /\ (e <= e')%Q /\ (s' <= s)%Q)
        \/ ((e' + iv' <= s')%Q /\ (e <= s')%Q /\ (iv < 0)%Q /\ (e == s)%Q)).
Proof.
  intro Hse. unfold SetRange_resolve.
  destruct (Qeq_bool e s) eqn:E1.
  - apply Qeq_bool_iff in E1.
    destruct (Qeq_bool iv 0) eqn:E2.
    + change (Qle_bool 1 0) with false. cbv iota.
      do 3 eexists. split; [reflexivity|]. left. repeat split; lra.
    + apply Qeq_bool_false in E2.
      destruct (Qle_bool iv 0) eqn:E3.
      * apply Qle_bool_iff in E3.
        do 3 eexists. split; [reflexivity|]. right.
        pose proof (safe_divide_half (e + iv - (s - iv))) as Hh.
        set (h := safe_divide (e + iv - (s - iv)) 2) in *.
        assert (Hiv : (iv < 0)%Q).
        { destruct (Qlt_le_dec iv 0) as [Hlt|Hge]; [exact Hlt|].
          exfalso. apply E2. lra. }
        repeat split; lra.
      * apply Qle_bool_false in E3.
        do 3 eexists. split; [reflexivity|]. left. repeat split; lra.
  - apply Qeq_bool_false in E1.
    assert (Hlt : (s < e)%Q).
    { destruct (Qlt_le_dec s e) as [H|H]; [exact H|].
      exfalso. apply E1. lra. }
    destruct (Qle_bool iv 0) eqn:E3.
    + do 3 eexists. split; [reflexivity|]. left.
      pose proof (safe_divide_half (e - s)) as Hh.
      set (h := safe_divide (e - s) 2) in *. repeat split; lra.
    + apply Qle_bool_false in E3.
      do 3 eexists. split; [reflexivity|]. left. repeat split; lra.
Qed.

Section SetRangeFacts.

Variable ToString : Q -> Z -> string.

Lemma SetRange_rejected (a : Axis) (s e : Q) (p : Z) (iv : Q) (di : Z) :
  (e < effective_start a s)%Q ->
  SetRange ToString a s e p iv di = invalidate_cached_labels a.
Proof.
  intro H. unfold SetRange.
  change (effective_start (invalidate_cached_labels a) s)
    with (effective_start a s).
  apply Qlt_bool_true in H. now rewrite H.
Qed.

Lemma SetRange_accepted (a : Axis) (s e : Q) (p : Z) (iv : Q) (di : Z) :
  (effective_start a s <= e)%Q ->
  SetRange ToString a s e p iv di
  = let '(s', e', iv') := SetRange_resolve (effective_start a s) e iv in
    SetRange_generate ToString
      (set_m_displayInterval di
         (set_m_tickMarkInterval iv
            (set_m_interval iv
               (set_m_displayPrecision p (invalidate_cached_labels a)))))
      s' e' p iv' di.
Proof.
  intro H. unfold SetRange.
  change (effective_start (invalidate_cached_labels a) s)
    with (effective_start a s).
  apply Qlt_bool_false in H. now rewrite H.
Qed.

Lemma SetRange_generate_ascending_eq (a : Axis) (s e : Q) (p : Z) (iv : Q)
    (di : Z) :
  IsReversed a = false ->
  SetRange_generate ToString a s e p iv di
  = let r :=
      iter_while (range_loop_bound (e + iv - s) iv)
        (fun st => Qlt_bool (range_loop_i st) (e + iv))
        (range_loop_body ToString p iv di) (s, 1, [], s) in
    set_m_rangeEnd (range_loop_last r)
      (set_m_rangeStart s
         (set_m_axisLabels (range_loop_labels r) (set_m_axisLabels [] a))).
Proof.
  intro H. unfold SetRange_generate.
  change (IsReversed (set_m_axisLabels [] a)) with (IsReversed a).
  rewrite H. cbn [m_axisLabels set_m_axisLabels].
  now destruct (iter_while _ _ _ _) as [[[? ?] ?] ?].
Qed.

Lemma SetRange_generate_descending_eq (a : Axis) (s e : Q) (p : Z) (iv : Q)
    (di : Z) :
  IsReversed a = true ->
  SetRange_generate ToString a s e p iv di
  = let r :=
      iter_while (range_loop_bound (e - (s - iv)) iv)
        (fun st => Qlt_bool (s - iv) (range_loop_i st))
        (range_loop_body ToString p (- iv) di) (e, 1, [], e) in
    set_m_rangeEnd (range_loop_last r)
      (set_m_rangeStart e
         (set_m_axisLabels (range_loop_labels r) (set_m_axisLabels [] a))).
Proof.
  intro H. unfold SetRange_generate.
  change (IsReversed (set_m_axisLabels [] a)) with (IsReversed a).
  rewrite H. cbn [m_axisLabels set_m_axisLabels].
  now destruct (iter_while _ _ _ _) as [[[? ?] ?] ?].
Qed.

(** Upward generation with a positive interval: the points ascend
    strictly, the stored range starts at [s] and ends on the first value
    at or above [e]. *)
Lemma SetRange_generate_ascending (a : Axis) (s e : Q) (p : Z) (iv : Q)
    (di : Z) :
  IsReversed a = false -> (0 < iv)%Q -> (s <= e)%Q ->
  let a' := SetRange_generate ToString a s e p iv di in
  m_rangeStart a' = s
  /\ (e <= m_rangeEnd a')%Q /\ (m_rangeEnd a' < e + iv)%Q
  /\ (s <= m_rangeEnd a')%Q
  /\ StronglySorted Qlt (values (m_axisLabels a'))
  /\ Forall (fun v => (s <= v /\ v < e + iv)%Q) (values (m_axisLabels a')).
Proof.
  intros Hrev Hiv Hse. rewrite SetRange_generate_ascending_eq by exact Hrev.
  cbv zeta. cbn [m_rangeStart m_rangeEnd m_axisLabels set_m_rangeEnd
                 set_m_rangeStart set_m_axisLabels].
  destruct (ascending_loop_spec ToString p di (e + iv) iv Hiv
              (range_loop_bound (e + iv - s) iv) s 1 [] s)
    as [gen [Hl [Hs [Hb [Hlt _]]]]].
  { apply range_loop_bound_enough. exact Hiv. }
  assert (H : (s < e + iv)%Q) by lra. specialize (Hlt H). cbv zeta in Hlt.
  rewrite Hl. simpl. repeat split; try assumption; lra.
Qed.

Lemma SetRange_generate_descending (a : Axis) (s e : Q) (p : Z) (iv : Q)
    (di : Z) :
  IsReversed a = true -> (0 < iv)%Q -> (s <= e)%Q ->
  let a' := SetRange_generate ToString a s e p iv di in
  m_rangeStart a' = e
  /\ (m_rangeEnd a' <= s)%Q /\ (s - iv < m_rangeEnd a')%Q
  /\ (m_rangeEnd a' <= e)%Q
  /\ StronglySorted (fun v w => (w < v)%Q) (values (m_axisLabels a'))
  /\ Forall (fun v => (s - iv < v /\ v <= e)%Q) (values (m_axisLabels a')).
Proof.
  intros Hrev Hiv Hse. rewrite SetRange_generate_descending_eq by exact Hrev.
  cbv zeta. cbn [m_rangeStart m_rangeEnd m_axisLabels set_m_rangeEnd
                 set_m_rangeStart set_m_axisLabels].
  destruct (descending_loop_spec ToString p di (s - iv) iv Hiv
              (range_loop_bound (e - (s - iv)) iv) e 1 [] e)
    as [gen [Hl [Hs [Hb [Hlt _]]]]].
  { apply range_loop_bound_enough. exact Hiv. }
  assert (H : (s - iv < e)%Q) by lra. specialize (Hlt H). cbv zeta in Hlt.
  rewrite Hl. simpl. repeat split; try assumption; lra.
Qed.

(** When the loop condition fails on entry nothing is generated. *)
Lemma SetRange_generate_idle (a : Axis) (s e : Q) (p : Z) (iv : Q) (di : Z) :
  (e + iv <= s)%Q ->
  let a' := SetRange_generate ToString a s e p iv di in
  m_axisLabels a' = []
  /\ m_rangeStart a' = (if IsReversed a then e else s)
  /\ m_rangeEnd a' = (if IsReversed a then e else s).
Proof.
  intro H. destruct (IsReversed a) eqn:Hrev.
  - rewrite SetRange_generate_descending_eq by exact Hrev.
    rewrite iter_while_exit; [now simpl|].
    cbn [range_loop_i]. apply Qlt_bool_false. lra.
  - rewrite SetRange_generate_ascending_eq by exact Hrev.
    rewrite iter_while_exit; [now simpl|].
    cbn [range_loop_i]. now apply Qlt_bool_false.
Qed.

End SetRangeFacts.

Section Frames.

Variable ToString : Q -> Z -> string.
Variable GetBoundingBox : Label -> wxSize.
Variable ScaleToScreenAndCanvas : Axis -> Z -> Z.

(** What [SetRange] leaves alone. *)
Lemma SetRange_frame (a : Axis) (s e : Q) (p : Z) (iv : Q) (di : Z) :
  let a' := SetRange ToString a s e p iv di in
  m_type a' = m_type a
  /\ m_customAxisLabels a' = m_customAxisLabels a
  /\ m_scaledReserved a' = m_scaledReserved a
  /\ m_startAtZero a' = m_startAtZero a
  /\ m_points a' = m_points a
  /\ m_widestLabel a' = Label.invalid
  /\ m_tallestLabel a' = Label.invalid.
Proof.
  unfold SetRange.
  destruct (Qlt_bool _ _); [now repeat split|].
  destruct (SetRange_resolve _ _ _) as [[s' e'] iv'].
  unfold SetRange_generate, IsReversed.
  cbn [m_scaledReserved set_m_axisLabels set_m_displayInterval
       set_m_tickMarkInterval set_m_interval set_m_displayPrecision
       invalidate_cached_labels set_m_widestLabel set_m_tallestLabel].
  destruct (m_scaledReserved a) eqn:Hr;
    destruct (iter_while _ _ _ _) as [[[? ?] ?] ?];
    repeat split; try reflexivity; exact Hr.
Qed.



Lemma CalcMaxLabelWidth_frame (a : Axis) :
  same_layout (CalcMaxLabelWidth ScaleToScreenAndCanvas a) a.
Proof. now repeat split. Qed.

Lemma GetWidestTextLabel_frame (a : Axis) :
  same_layout (snd (GetWidestTextLabel GetBoundingBox a)) a.
Proof.
  unfold GetWidestTextLabel.
  destruct (Label.IsOk _); [now repeat split|].
  destruct (GetAxisPointsCount _ =? 0); now repeat split.
Qed.

Lemma GetTallestTextLabel_frame (a : Axis) :
  same_layout (snd (GetTallestTextLabel GetBoundingBox a)) a.
Proof.
  unfold GetTallestTextLabel.
  destruct (Label.IsOk _); [now repeat split|].
  destruct (GetAxisPointsCount _ =? 0); now repeat split.
Qed.

(** [CalcBestScalingToFitLabels] touches the label width budget, the two
    cached labels and the label scaling only. *)
Lemma CalcBestScalingToFitLabels_frame (a : Axis) :
  same_layout
    (snd (CalcBestScalingToFitLabels GetBoundingBox ScaleToScreenAndCanvas a))
    a.
Proof.
  unfold CalcBestScalingToFitLabels.
  destruct (GetAxisPointsCount a =? 0); [apply same_layout_refl|].
  pose proof (CalcMaxLabelWidth_frame a) as H0.
  set (a0 := CalcMaxLabelWidth ScaleToScreenAndCanvas a) in *.
  destruct (m_maxLabelWidth a0 <=? 0).
  { eapply same_layout_trans; [|exact H0]. now repeat split. }
  destruct (GetAxisLabelOrientation a0).
  - pose proof (GetWidestTextLabel_frame a0) as H1.
    destruct (GetWidestTextLabel GetBoundingBox a0) as [l a1].
    destruct (iter_while _ _ _ _) as [[? ?] ?].
    eapply same_layout_trans; [|exact H0].
    eapply same_layout_trans; [|exact H1]. now repeat split.
  - pose proof (GetTallestTextLabel_frame a0) as H1.
    destruct (GetTallestTextLabel GetBoundingBox a0) as [l a1].
    destruct (iter_while _ _ _ _) as [[? ?] ?].
    eapply same_layout_trans; [|exact H0].
    eapply same_layout_trans; [|exact H1]. now repeat split.
Qed.

Lemma CalcLabelPositions_frame (a : Axis) :
  let a' := CalcLabelPositions a in
  m_type a' = m_type a
  /\ m_axisLabels a' = m_axisLabels a
  /\ m_customAxisLabels a' = m_customAxisLabels a
  /\ m_rangeStart a' = m_rangeStart a
  /\ m_rangeEnd a' = m_rangeEnd a
  /\ m_scaledReserved a' = m_scaledReserved a
  /\ m_points a' = m_points a.
Proof.
  unfold CalcLabelPositions.
  destruct (IsVertical a); [now repeat split|].
  destruct (IsHorizontal a); now repeat split.
Qed.

Lemma CalcTickMarkPositions_frame (a : Axis) :
  let a' := CalcTickMarkPositions a in
  m_type a' = m_type a
  /\ m_customAxisLabels a' = m_customAxisLabels a
  /\ m_rangeStart a' = m_rangeStart a
  /\ m_rangeEnd a' = m_rangeEnd a
  /\ m_scaledReserved a' = m_scaledReserved a
  /\ m_points a' = m_points a
  /\ m_labelSpacingPhysicalOffset a' = m_labelSpacingPhysicalOffset a.
Proof.
  unfold CalcTickMarkPositions.
  destruct (IsVertical a); [now repeat split|].
  destruct (IsHorizontal a); now repeat split.
Qed.

Lemma SetPoints_frame (a : Axis) (pt1 pt2 : wxPoint) :
  let a' := SetPoints GetBoundingBox ScaleToScreenAndCanvas a pt1 pt2 in
  m_type a' = m_type a
  /\ m_customAxisLabels a' = m_customAxisLabels a
  /\ m_rangeStart a' = m_rangeStart a
  /\ m_rangeEnd a' = m_rangeEnd a
  /\ m_scaledReserved a' = m_scaledReserved a.
Proof.
  unfold SetPoints.
  set (a1 := if IsVertical a then _ else _).
  assert (H1 : m_type a1 = m_type a
               /\ m_customAxisLabels a1 = m_customAxisLabels a
               /\ m_rangeStart a1 = m_rangeStart a
               /\ m_rangeEnd a1 = m_rangeEnd a
               /\ m_scaledReserved a1 = m_scaledReserved a).
  { subst a1. destruct (IsVertical a); [destruct (y pt1 <? y pt2)
                                       | destruct (x pt1 <? x pt2)];
      now repeat split. }
  destruct H1 as (T1 & C1 & S1 & E1 & R1).
  destruct (CalcLabelPositions_frame a1) as (T2 & _ & C2 & S2 & E2 & R2 & _).
  destruct (CalcTickMarkPositions_frame (CalcLabelPositions a1))
    as (T3 & C3 & S3 & E3 & R3 & _).
  destruct (CalcBestScalingToFitLabels_frame
              (CalcTickMarkPositions (CalcLabelPositions a1)))
    as (T4 & _ & C4 & S4 & E4 & R4 & _).
  cbv zeta in *. repeat split; congruence.
Qed.

End Frames.

(** ** The range invariant *)




Section RangeInvariant.

Variable compare_doubles_delta : Q.
Variable ToString : Q -> Z -> string.
Variable GetBoundingBox : Label -> wxSize.
Variable SplitTextToFitLength : string -> string.
Variable ScaleToScreenAndCanvas : Axis -> Z -> Z.





End RangeInvariant.

(** ** Custom labels *)




Section CustomLabels.

Variable compare_doubles_delta : Q.
Variable ToString : Q -> Z -> string.
Variable GetBoundingBox : Label -> wxSize.
Variable SplitTextToFitLength : string -> string.
Variable ScaleToScreenAndCanvas : Axis -> Z -> Z.


End CustomLabels.

(** ** Searching the points *)



(** The index arithmetic of the searches ([pos], then [--pos] for the
    previous line) finds the pair that [locate] finds. *)
Lemma find_first_locate (f : AxisPoint -> bool) (l : list AxisPoint) :
  forall prev,
    match nth_error l (find_first f l) with
    | None => locate f prev l = None
    | Some p =>
        locate f prev l
        = Some (match find_first f l with
                | O => prev
                | S j => Some (nth j l p)
                end, p)
    end.
Proof.
  induction l as [|q l IH]; intro prev; simpl; [reflexivity|].
  destruct (f q); simpl; [reflexivity|].
  specialize (IH (Some q)).
  destruct (nth_error l (find_first f l)) as [p|]; [|exact IH].
  rewrite IH. now destruct (find_first f l).
Qed.

Section LowerBound.

Variable value : Q.

(** On a range that is partitioned with respect to [< value], the binary
    search returns the partition point. *)
Lemma lower_bound_loop_partitioned (l : list AxisPoint) (k : nat) :
  forall fuel first len,
    (len <= fuel)%nat ->
    (first + len <= List.length l)%nat ->
    (first <= k <= first + len)%nat ->
    (forall i p, (first <= i < k)%nat -> nth_error l i = Some p ->
                 AxisPoint_lt p value = true) ->
    (forall i p, (k <= i < first + len)%nat -> nth_error l i = Some p ->
                 AxisPoint_lt p value = false) ->
    lower_bound_loop fuel l first len value = k.
Proof.
  induction fuel as [|fuel IH]; intros first len Hfuel Hlen Hk Hlt Hge.
  - simpl. lia.
  - cbn [lower_bound_loop]. destruct len as [|len']; [lia|].
    remember (S len') as len eqn:Elen.
    assert (Hhalf : (Nat.div2 len < len)%nat)
      by (apply Nat.lt_div2; lia).
    assert (Hin : (first + Nat.div2 len < first + len)%nat) by lia.
    generalize dependent (Nat.div2 len). intros half Hhalf Hin.
    destruct (nth_error l (first + half)) as [p|] eqn:E.
    + destruct (AxisPoint_lt p value) eqn:Ep.
      * assert (Hmid : (first + half < k)%nat).
        { destruct (Nat.lt_ge_cases (first + half) k) as [H|H];
            [exact H|].
          rewrite (Hge _ p (conj H Hin) E) in Ep. discriminate. }
        apply IH; try lia.
        -- intros i q Hi. apply Hlt. lia.
        -- intros i q Hi. apply Hge. lia.
      * assert (Hmid : (k <= first + half)%nat).
        { destruct (Nat.lt_ge_cases (first + half) k) as [H|H];
            [|exact H].
          assert (Hlo : (first <= first + half)%nat) by lia.
          rewrite (Hlt _ p (conj Hlo H) E) in Ep. discriminate. }
        apply IH; try lia.
        -- intros i q Hi. apply Hlt. lia.
        -- intros i q Hi. apply Hge. lia.
    + apply nth_error_None in E. lia.
Qed.

Lemma find_first_bounds {A : Type} (f : A -> bool) (l : list A) :
  (find_first f l <= List.length l)%nat.
Proof.
  induction l as [|p l IH]; simpl; [lia|]. destruct (f p); lia.
Qed.

Lemma find_first_before {A : Type} (f : A -> bool) (l : list A) :
  forall i p, (i < find_first f l)%nat -> nth_error l i = Some p ->
              f p = false.
Proof.
  induction l as [|q l IH]; intros i p Hi E; simpl in *; [lia|].
  destruct (f q) eqn:Eq; [lia|].
  destruct i as [|i]; simpl in E.
  - now injection E as <-.
  - apply (IH i); [lia | exact E].
Qed.

Lemma find_first_at {A : Type} (f : A -> bool) (l : list A) :
  forall p, nth_error l (find_first f l) = Some p -> f p = true.
Proof.
  induction l as [|q l IH]; intros p E; simpl in *; [discriminate|].
  destruct (f q) eqn:Eq; simpl in E.
  - now injection E as <-.
  - now apply IH.
Qed.

Lemma sorted_nth_le (l : list AxisPoint) :
  StronglySorted Qle (values l) ->
  forall i j p q, (i <= j)%nat ->
                  nth_error l i = Some p -> nth_error l j = Some q ->
                  (AxisPoint.GetValue p <= AxisPoint.GetValue q)%Q.
Proof.
  induction l as [|h l IH]; intros Hs i j p q Hij Ep Eq;
    [now destruct i|].
  simpl in Hs. apply StronglySorted_inv in Hs as [Hs Hall].
  destruct i as [|i]; destruct j as [|j]; simpl in *; try lia.
  - injection Ep as <-. injection Eq as <-. apply Qle_refl.
  - injection Ep as <-. rewrite Forall_forall in Hall. apply Hall.
    apply in_map. eapply nth_error_In. exact Eq.
  - apply (IH Hs i j); [lia | exact Ep | exact Eq].
Qed.

(** On points in ascending order the binary search is the linear search
    for the first point that is not below the value. *)
Lemma lower_bound_sorted (l : list AxisPoint) :
  StronglySorted Qle (values l) ->
  lower_bound l value
  = find_first (fun p => negb (AxisPoint_lt p value)) l.
Proof.
  intro Hs. unfold lower_bound.
  set (f := fun p => negb (AxisPoint_lt p value)).
  pose proof (find_first_bounds f l) as Hb.
  apply lower_bound_loop_partitioned; try lia.
  - intros i p Hi E.
    apply (find_first_before f l i p) in E; [|lia].
    subst f. simpl in E. now apply negb_false_iff in E.
  - intros i p Hi E.
    destruct (nth_error l (find_first f l)) as [q|] eqn:Eq.
    + pose proof (find_first_at f l q Eq) as Hq.
      subst f. simpl in Hq. apply negb_true_iff in Hq.
      unfold AxisPoint_lt in *. apply Qlt_bool_false in Hq.
      apply Qlt_bool_false.
      assert (Hle : (find_first
                       (fun p =>
                          negb (Qlt_bool (AxisPoint.GetValue p) value)) l
                     <= i)%nat) by lia.
      pose proof (sorted_nth_le l Hs _ i q p Hle Eq E).
      lra.
    + apply nth_error_None in Eq. lia.
Qed.



End LowerBound.

(** ** The coordinate mapping as a search followed by a resolution *)

Lemma axis_orientation (a : Axis) : IsVertical a = negb (IsHorizontal a).
Proof. unfold IsVertical, IsHorizontal. now destruct (m_type a). Qed.

Lemma locate_resolves_coordinate (delta : Q) (a : Axis) (value : Q)
    (f : AxisPoint -> bool) (l : list AxisPoint) :
  match nth_error l (find_first f l) with
  | None => (false, -1)
  | Some p =>
      if AxisPoint_eq delta p value
      then (true, double_to_int (AxisPoint.GetPhysicalCoordinate p))
      else
        match find_first f l with
        | O => (false, -1)
        | S prev => interpolate_coordinate a (nth prev l p) p value
        end
  end
  = resolve_coordinate delta a value (locate f None l).
Proof.
  pose proof (find_first_locate f l None) as H.
  destruct (nth_error l (find_first f l)) as [p|]; rewrite H; simpl;
    [|reflexivity].
  destruct (AxisPoint_eq delta p value); [reflexivity|].
  now destruct (find_first f l).
Qed.

Lemma GetPhysicalCoordinate_forward (delta : Q) (a : Axis) (value : Q) :
  IsReversed a = false ->
  StronglySorted Qle (values (m_axisLabels a)) ->
  GetPhysicalCoordinate delta a value
  = resolve_coordinate delta a value
      (locate (fun p => negb (AxisPoint_lt p value)) None (m_axisLabels a)).
Proof.
  intros Hrev Hs. unfold GetPhysicalCoordinate, GetAxisPointsCount,
    GetAxisPoints.
  rewrite Hrev, (lower_bound_sorted value _ Hs).
  destruct (m_axisLabels a) as [|p l] eqn:E; [reflexivity|].
  change (Z.of_nat (List.length (p :: l)) =? 0) with false. cbv iota.
  apply locate_resolves_coordinate.
Qed.

Lemma GetPhysicalCoordinate_reversed (delta : Q) (a : Axis) (value : Q) :
  IsReversed a = true ->
  GetPhysicalCoordinate delta a value
  = resolve_coordinate delta a value
      (locate (reversed_search delta value) None (m_axisLabels a)).
Proof.
  intros Hrev. unfold GetPhysicalCoordinate, GetAxisPointsCount,
    GetAxisPoints.
  rewrite Hrev.
  destruct (m_axisLabels a) as [|p l] eqn:E; [reflexivity|].
  change (Z.of_nat (List.length (p :: l)) =? 0) with false. cbv iota.
  apply locate_resolves_coordinate.
Qed.

Lemma locate_resolves_value (a : Axis) (coordinate : Z)
    (f : AxisPoint -> bool) (l : list AxisPoint) :
  match nth_error l (find_first f l) with
  | None => (false, (-1)%Q)
  | Some p =>
      if Qeq_bool (inject_Z coordinate) (AxisPoint.GetPhysicalCoordinate p)
      then (true, AxisPoint.GetValue p)
      else
        match find_first f l with
        | O => (false, (-1)%Q)
        | S prev => interpolate_value a (nth prev l p) p coordinate
        end
  end
  = resolve_value a coordinate (locate f None l).
Proof.
  pose proof (find_first_locate f l None) as H.
  destruct (nth_error l (find_first f l)) as [p|]; rewrite H; simpl;
    [|reflexivity].
  destruct (Qeq_bool _ _); [reflexivity|].
  now destruct (find_first f l).
Qed.

Lemma GetValueFromPhysicalCoordinate_locate (a : Axis) (coordinate : Z) :
  GetValueFromPhysicalCoordinate a coordinate
  = resolve_value a coordinate
      (locate (pixel_search a coordinate) None (m_axisLabels a)).
Proof.
  unfold GetValueFromPhysicalCoordinate, GetAxisPointsCount, GetAxisPoints.
  rewrite axis_orientation.
  destruct (m_axisLabels a) as [|p0 l0] eqn:E; [reflexivity|].
  change (Z.of_nat (List.length (p0 :: l0)) =? 0) with false. cbv iota.
  replace (negb (IsHorizontal a) && negb (negb (IsHorizontal a)))
    with false by (now destruct (IsHorizontal a)).
  apply locate_resolves_value.
Qed.

(** ** Interpolation *)





Lemma compare_doubles_refl (delta x : Q) : compare_doubles delta x x = true.
Proof.
  unfold compare_doubles. apply Qle_bool_iff.
  setoid_replace (x - x)%Q with 0%Q by ring. apply Qabs_nonneg.
Qed.

Lemma compare_doubles_apart (delta x y : Q) :
  (Qabs delta < Qabs (x - y))%Q -> compare_doubles delta x y = false.
Proof.
  intro H. unfold compare_doubles. now apply Qle_bool_false.
Qed.

(** ** Monotonicity of the forward mapping

    The argument is the same for a horizontal and for a vertical axis once
    the pixel order is read in the direction of growing values: [before] on
    pixels, [beforeQ] on the coordinates of the points. *)

Section Monotone.

Variable delta : Q.
Variable a : Axis.
Variable before : Z -> Z -> Prop.
Variable beforeQ : Q -> Q -> Prop.

Hypothesis before_refl : forall z, before z z.
Hypothesis before_trans :
  forall z1 z2 z3, before z1 z2 -> before z2 z3 -> before z1 z3.
Hypothesis double_to_int_before :
  forall c d, beforeQ c d -> before (double_to_int c) (double_to_int d).

Hypothesis interpolate_between :
  forall q p v,
    (AxisPoint.GetValue q < v)%Q -> (v <= AxisPoint.GetValue p)%Q ->
    beforeQ (AxisPoint.GetPhysicalCoordinate q)
            (AxisPoint.GetPhysicalCoordinate p) ->
    exists r,
      interpolate_coordinate a q p v = (true, r)
      /\ before (double_to_int (AxisPoint.GetPhysicalCoordinate q)) r
      /\ before r (double_to_int (AxisPoint.GetPhysicalCoordinate p)).

Hypothesis interpolate_monotone :
  forall q p v w r1 r2,
    (AxisPoint.GetValue q < v)%Q -> (v <= w)%Q ->
    (w <= AxisPoint.GetValue p)%Q ->
    beforeQ (AxisPoint.GetPhysicalCoordinate q)
            (AxisPoint.GetPhysicalCoordinate p) ->
    interpolate_coordinate a q p v = (true, r1) ->
    interpolate_coordinate a q p w = (true, r2) ->
    before r1 r2.





End Monotone.

(** ** Interpolation stays between the two lines *)








(** ** The coordinates [SetPoints] assigns *)

Lemma assign_coordinates_values (f : nat -> Q) (l : list AxisPoint) :
  forall k, values (assign_coordinates f k l) = values l.
Proof.
  induction l as [|p l IH]; intro k; simpl; [reflexivity|]. now rewrite IH.
Qed.

Lemma assign_coordinates_ext (f g : nat -> Q) (l : list AxisPoint) :
  (forall i, f i = g i) ->
  forall k, assign_coordinates f k l = assign_coordinates g k l.
Proof.
  intro H. induction l as [|p l IH]; intro k; simpl; [reflexivity|].
  now rewrite H, IH.
Qed.





Section SetPointsFacts.

Variable GetBoundingBox : Label -> wxSize.
Variable ScaleToScreenAndCanvas : Axis -> Z -> Z.

Let SetPoints' := SetPoints GetBoundingBox ScaleToScreenAndCanvas.


Lemma SetPoints_labels (a : Axis) (pt1 pt2 : wxPoint) :
  m_axisLabels (SetPoints' a pt1 pt2)
  = assign_coordinates (point_coordinate a pt1 pt2) 0 (m_axisLabels a).
Proof.
  subst SetPoints'. unfold SetPoints.
  destruct (CalcBestScalingToFitLabels_frame GetBoundingBox
              ScaleToScreenAndCanvas
              (CalcTickMarkPositions
                 (CalcLabelPositions
                    (if IsVertical a
                     then if y pt1 <? y pt2 then set_m_points (pt1, pt2) a
                          else set_m_points (pt2, pt1) a
                     else if x pt1 <? x pt2 then set_m_points (pt1, pt2) a
                          else set_m_points (pt2, pt1) a))))
    as (_ & -> & _).
  unfold point_coordinate, label_offset, line_start, line_end.
  pose proof (axis_orientation a) as Ho.
  destruct (IsVertical a) eqn:Hv.
  - destruct (y pt1 <? y pt2);
      unfold CalcTickMarkPositions, CalcLabelPositions;
      change (IsVertical (set_m_points _ a)) with (IsVertical a);
      rewrite Hv;
      change (IsVertical (set_m_labelSpacingPhysicalOffset _ _))
        with (IsVertical a);
      rewrite Hv; reflexivity.
  - assert (Hh : IsHorizontal a = true) by (now destruct (IsHorizontal a)).
    destruct (x pt1 <? x pt2);
      unfold CalcTickMarkPositions, CalcLabelPositions;
      change (IsVertical (set_m_points _ a)) with (IsVertical a);
      change (IsHorizontal (set_m_points _ a)) with (IsHorizontal a);
      rewrite Hv, Hh;
      change (IsVertical (set_m_labelSpacingPhysicalOffset _ _))
        with (IsVertical a);
      change (IsHorizontal (set_m_labelSpacingPhysicalOffset _ _))
        with (IsHorizontal a);
      rewrite Hv, Hh; reflexivity.
Qed.









End SetPointsFacts.

(** ** Out of range *)

Lemma Qabs_delta_nonneg (delta : Q) : (0 <= Qabs delta)%Q.
Proof. apply Qabs_nonneg. Qed.

Lemma compare_doubles_far_below (delta x y : Q) :
  (x + Qabs delta < y)%Q -> compare_doubles delta x y = false.
Proof.
  intro H. apply compare_doubles_apart.
  pose proof (Qabs_delta_nonneg delta).
  rewrite (Qabs_neg (x - y)) by lra. lra.
Qed.






(** ** Round trip at a point *)

Lemma double_to_int_comp (p q : Q) :
  (p == q)%Q -> double_to_int p = double_to_int q.
Proof.
  intro E. apply Z.le_antisymm; apply double_to_int_mono; rewrite E;
    apply Qle_refl.
Qed.

Lemma sorted_values_head (R : Q -> Q -> Prop) (g : AxisPoint -> Q)
    (q p : AxisPoint) (l : list AxisPoint) :
  StronglySorted R (map g (q :: l)) -> In p l -> R (g q) (g p).
Proof.
  intros Hs Hp. simpl in Hs. apply StronglySorted_inv in Hs as [_ H].
  rewrite Forall_forall in H. apply H. now apply in_map.
Qed.

Lemma sorted_values_tail (R : Q -> Q -> Prop) (g : AxisPoint -> Q)
    (q : AxisPoint) (l : list AxisPoint) :
  StronglySorted R (map g (q :: l)) -> StronglySorted R (map g l).
Proof. intro Hs. simpl in Hs. now apply StronglySorted_inv in Hs. Qed.

(** A search that is false before [p] and true at [p] finds [p]. *)
Lemma locate_finds (R : Q -> Q -> Prop) (g : AxisPoint -> Q)
    (f : AxisPoint -> bool) (p : AxisPoint) (l : list AxisPoint) :
  f p = true ->
  (forall q, R (g q) (g p) -> f q = false) ->
  StronglySorted R (map g l) ->
  In p l ->
  forall prev, exists prev', locate f prev l = Some (prev', p).
Proof.
  intros Hp Hbefore. induction l as [|q l IH]; intros Hs Hin prev;
    [contradiction|].
  simpl. destruct Hin as [->|Hin].
  - rewrite Hp. eauto.
  - rewrite (Hbefore q (sorted_values_head R g q p l Hs Hin)).
    apply IH; [eapply sorted_values_tail; exact Hs | exact Hin].
Qed.

Lemma Qlt_sorted_Qle (l : list Q) :
  StronglySorted Qlt l -> StronglySorted Qle l.
Proof.
  induction 1 as [|v l Hl IH Hv]; constructor; [exact IH|].
  eapply Forall_impl; [|exact Hv]. intros w Hw. now apply Qlt_le_weak.
Qed.

Lemma GetPhysicalCoordinate_at_point (delta : Q) (a : Axis) (p : AxisPoint)
    (c : Z) :
  In p (GetAxisPoints a) ->
  (AxisPoint.GetPhysicalCoordinate p == inject_Z c)%Q ->
  (if IsReversed a
   then StronglySorted (fun v w => (w + Qabs delta < v)%Q)
          (values (GetAxisPoints a))
   else StronglySorted Qlt (values (GetAxisPoints a))) ->
  GetPhysicalCoordinate delta a (AxisPoint.GetValue p) = (true, c).
Proof.
  intros Hin Hc Hs. unfold GetAxisPoints in *.
  pose proof (Qabs_delta_nonneg delta) as Hd.
  assert (Hres : forall f,
            (exists prev', locate f None (m_axisLabels a) = Some (prev', p)) ->
            resolve_coordinate delta a (AxisPoint.GetValue p)
              (locate f None (m_axisLabels a)) = (true, c)).
  { intros f [prev' E]. rewrite E. simpl. unfold AxisPoint_eq.
    rewrite compare_doubles_refl. f_equal.
    rewrite (double_to_int_comp _ _ Hc). apply double_to_int_inject. }
  destruct (IsReversed a) eqn:Hrev.
  - rewrite GetPhysicalCoordinate_reversed by exact Hrev.
    apply Hres.
    apply (locate_finds (fun v w => (w + Qabs delta < v)%Q)
             AxisPoint.GetValue); try assumption.
    + unfold reversed_search. apply orb_true_iff. left.
      apply Qle_bool_iff. apply Qle_refl.
    + intros q Hq. unfold reversed_search. apply orb_false_iff. split.
      * apply Qle_bool_false. lra.
      * now apply compare_doubles_far_below.
  - rewrite GetPhysicalCoordinate_forward
      by (try exact Hrev; now apply Qlt_sorted_Qle).
    apply Hres.
    apply (locate_finds Qlt AxisPoint.GetValue); try assumption.
    + unfold AxisPoint_lt. apply negb_true_iff. apply Qlt_bool_false.
      apply Qle_refl.
    + intros q Hq. unfold AxisPoint_lt. apply negb_false_iff.
      now apply Qlt_bool_true.
Qed.

Lemma GetValueFromPhysicalCoordinate_at_point (a : Axis) (p : AxisPoint)
    (c : Z) :
  In p (GetAxisPoints a) ->
  (AxisPoint.GetPhysicalCoordinate p == inject_Z c)%Q ->
  (if IsHorizontal a
   then StronglySorted Qlt (coordinates (GetAxisPoints a))
   else StronglySorted (fun c d => (d < c)%Q)
          (coordinates (GetAxisPoints a))) ->
  GetValueFromPhysicalCoordinate a c = (true, AxisPoint.GetValue p).
Proof.
  intros Hin Hc Hs. unfold GetAxisPoints in *.
  rewrite GetValueFromPhysicalCoordinate_locate.
  assert (Hres : (exists prev',
                    locate (pixel_search a c) None (m_axisLabels a)
                    = Some (prev', p)) ->
                 resolve_value a c
                   (locate (pixel_search a c) None (m_axisLabels a))
                 = (true, AxisPoint.GetValue p)).
  { intros [prev' E]. rewrite E. simpl.
    assert (Eq : Qeq_bool (inject_Z c) (AxisPoint.GetPhysicalCoordinate p)
                 = true) by (apply Qeq_bool_iff; now symmetry).
    now rewrite Eq. }
  apply Hres. unfold pixel_search.
  destruct (IsHorizontal a).
  - apply (locate_finds Qlt AxisPoint.GetPhysicalCoordinate);
      try assumption.
    + apply Qle_bool_iff. rewrite Hc. apply Qle_refl.
    + intros q Hq. apply Qle_bool_false. now rewrite <- Hc.
  - apply (locate_finds (fun c d => (d < c)%Q)
             AxisPoint.GetPhysicalCoordinate); try assumption.
    + apply Qle_bool_iff. rewrite Hc. apply Qle_refl.
    + intros q Hq. apply Qle_bool_false. now rewrite <- Hc.
Qed.

(** ** The auto-interval overload *)







Section AutoInterval.

Variable ToString : Q -> Z -> string.






End AutoInterval.

(** ** A degenerate request *)

Section Degenerate.

Variable ToString : Q -> Z -> string.



End Degenerate.

(** ** Stacking *)

Section Stacking.

Variable GetBoundingBox : Label -> wxSize.
Variable ToDIP : Z -> Z.

(** As soon as a displayed label that is neither the first nor the last
    point is at least as wide as the budget, the scan reports it.  Two
    displayed labels after the first position, or three from it, are
    enough to have one. *)
Lemma any_label_too_wide_inner (a : Axis) (maxTextSize width : Z) :
  GetAxisLabelOrientation a = Parallel ->
  maxTextSize <= width ->
  forall (points : list AxisPoint) (isFirst : bool) (axisLabel : Label),
    (forall p, In p points -> IsPointDisplayingLabel a p = true ->
       GetWidth
         (GetBoundingBox
            (Label.SetText axisLabel
               (Label.GetText (GetDisplayableValue a p)))) = width) ->
    ((if isFirst then 3 else 2)
     <= List.length (filter (IsPointDisplayingLabel a) points))%nat ->
    any_label_too_wide GetBoundingBox a axisLabel maxTextSize isFirst points
    = true.
Proof.
  intros Ho Hw.
  induction points as [|p rest IH]; intros isFirst axisLabel Hm Hc.
  - simpl in Hc. destruct isFirst; lia.
  - cbn [any_label_too_wide]. cbn [filter] in Hc.
    destruct (IsPointDisplayingLabel a p) eqn:Ep.
    + rewrite Ho, (Hm p (or_introl eq_refl) Ep).
      destruct (IsShowingOuterLabels a
                && (isFirst || match rest with [] => true | _ => false end))
        eqn:Eouter.
      * destruct (maxTextSize <=? width ÷ 2); [reflexivity|].
        apply IH.
        { intros q Hq Hd. exact (Hm q (or_intror Hq) Hd). }
        cbn [List.length] in Hc. destruct isFirst; [lia|].
        destruct rest as [|r rest']; [simpl in Hc; lia|].
        rewrite andb_false_r in Eouter. discriminate.
      * apply Z.leb_le in Hw. now rewrite Hw.
    + apply IH.
      { intros q Hq Hd. exact (Hm q (or_intror Hq) Hd). }
      destruct isFirst; lia.
Qed.

Lemma displayedLabelsCount_bounds (a : Axis) :
  let shown :=
    Z.of_nat
      (List.length (filter (IsPointDisplayingLabel a) (GetAxisPoints a))) in
  displayedLabelsCount a = shown \/ displayedLabelsCount a = shown - 1.
Proof.
  cbv zeta. unfold displayedLabelsCount.
  match goal with
  | |- context [if ?c then _ else _] => destruct c
  end; [now right | now left].
Qed.

(** The scenario: 200 pixels, ten displayed labels of 30 pixels each,
    labels parallel to the axis, auto-stacking on. *)
Lemma ShouldLabelsBeStackedToFit_scenario (a : Axis) :
  IsAutoStackingEnabled a = true ->
  GetAxisLabelOrientation a = Parallel ->
  axisPixelLength a = 200 ->
  List.length (filter (IsPointDisplayingLabel a) (GetAxisPoints a))
  = 10%nat ->
  (forall p, In p (GetAxisPoints a) -> IsPointDisplayingLabel a p = true ->
     GetWidth
       (GetBoundingBox
          (Label.SetText
             (AdjustLabelSizeIfUsingBackgroundColor ToDIP a
                (Label.make EmptyString (GetScaling a) (m_padding a)) true)
             (Label.GetText (GetDisplayableValue a p)))) = 30) ->
  ShouldLabelsBeStackedToFit GetBoundingBox ToDIP a = true.
Proof.
  intros Hauto Ho Hlen Hcount Hm. unfold ShouldLabelsBeStackedToFit.
  rewrite Hauto, Ho, Hlen. cbn [negb AxisLabelOrientation_eqb].
  assert (Hmax :
    double_to_int
      (inject_Z (safe_divide_int 200 (displayedLabelsCount a)) - 0)
    = 20
    \/ double_to_int
         (inject_Z (safe_divide_int 200 (displayedLabelsCount a)) - 0)
       = 22).
  { destruct (displayedLabelsCount_bounds a) as [E|E]; rewrite E, Hcount;
      [left | right]; reflexivity. }
  set (maxTextSize := double_to_int _) in *.
  assert (Hpos : (maxTextSize <=? 0) = false)
    by (apply Z.leb_gt; destruct Hmax; lia).
  rewrite Hpos.
  apply (any_label_too_wide_inner a maxTextSize 30 Ho);
    [destruct Hmax; lia | exact Hm | rewrite Hcount; lia].
Qed.

(** With auto-stacking off the client's setting is returned as it is. *)
Lemma ShouldLabelsBeStackedToFit_fixed (a : Axis) :
  IsAutoStackingEnabled a = false ->
  ShouldLabelsBeStackedToFit GetBoundingBox ToDIP a = IsStackingLabels a.
Proof.
  intro H. unfold ShouldLabelsBeStackedToFit. now rewrite H.
Qed.

End Stacking.

(** ** The order of the points

    Every mutating operation keeps the points in the order the direction of
    the axis asks for. *)

Lemma StronglySorted_app {A : Type} (R : A -> A -> Prop) (l1 l2 : list A) :
  StronglySorted R l1 -> StronglySorted R l2 ->
  (forall u v, In u l1 -> In v l2 -> R u v) ->
  StronglySorted R (l1 ++ l2).
Proof.
  intros H1 H2 H12. induction l1 as [|h t IH]; simpl; [exact H2|].
  apply StronglySorted_inv in H1. destruct H1 as [Ht Hh].
  constructor.
  - apply IH; [exact Ht|]. intros u v Hu Hv. apply H12; [now right | exact Hv].
  - apply Forall_app. split; [exact Hh|].
    apply Forall_forall. intros v Hv. apply H12; [now left | exact Hv].
Qed.

Lemma StronglySorted_rev {A : Type} (R : A -> A -> Prop) (l : list A) :
  StronglySorted R l -> StronglySorted (fun u v => R v u) (rev l).
Proof.
  induction 1 as [|h t Ht IH Hh]; simpl; [constructor|].
  apply StronglySorted_app; [exact IH | repeat constructor |].
  intros u v Hu Hv. destruct Hv as [<-|[]].
  apply in_rev in Hu. rewrite Forall_forall in Hh. now apply Hh.
Qed.

Lemma values_rev (l : list AxisPoint) : values (rev l) = rev (values l).
Proof. unfold values. apply map_rev. Qed.

Lemma show_at_values (n : nat) (show : bool) (l : list AxisPoint) :
  values (show_at n show l) = values l.
Proof.
  revert n. induction l as [|p l IH]; intros [|n]; simpl; auto.
  now rewrite IH.
Qed.

Lemma display_loop_values (displayInterval : Z) (fuel : nat) :
  forall s s',
    while_fuel fuel display_loop_cond (display_loop_body displayInterval) s
    = Some s' ->
    values (snd s') = values (snd s).
Proof.
  induction fuel as [|fuel IH]; intros s s' H; simpl in H.
  - destruct (display_loop_cond s); [discriminate|]. now inversion H.
  - destruct (display_loop_cond s); [|now inversion H].
    apply IH in H. rewrite H. unfold display_loop_body. cbn [snd].
    apply show_at_values.
Qed.

(** Inserting a value in front of the first larger one keeps an ascending
    list ascending (and likewise with the order turned round). *)
Lemma insert_at_ordered (R : Q -> Q -> Prop) (before : AxisPoint -> bool)
    (q : AxisPoint) :
  (forall p, before p = true ->
     forall r, R (AxisPoint.GetValue p) r -> R (AxisPoint.GetValue q) r) ->
  (forall p, before p = true -> R (AxisPoint.GetValue q) (AxisPoint.GetValue p)) ->
  (forall p, before p = false -> R (AxisPoint.GetValue p) (AxisPoint.GetValue q)) ->
  forall l,
    StronglySorted R (values l) ->
    StronglySorted R (values (insert_at (find_first before l) q l)).
Proof.
  intros Htrans Hb Hnb. induction l as [|p l IH]; intro Hs.
  - simpl. repeat constructor.
  - cbn [find_first]. destruct (before p) eqn:E.
    + cbn [insert_at values map]. constructor; [exact Hs|].
      cbn [values map] in Hs. apply StronglySorted_inv in Hs.
      destruct Hs as [_ Hall]. constructor; [now apply Hb|].
      eapply Forall_impl; [|exact Hall]. intros r Hr.
      now apply (Htrans p E).
    + cbn [insert_at values map]. cbn [values map] in Hs.
      apply StronglySorted_inv in Hs. destruct Hs as [Ht Hall].
      constructor; [now apply IH|].
      clear IH Ht. fold (values l) in Hall.
      change (map AxisPoint.GetValue (insert_at (find_first before l) q l))
        with (values (insert_at (find_first before l) q l)).
      assert (Hq : R (AxisPoint.GetValue p) (AxisPoint.GetValue q))
        by now apply Hnb.
      revert Hall. generalize (find_first before l). intros n.
      revert n. induction l as [|r l IHl]; intros n Hall.
      * destruct n; simpl; repeat constructor; exact Hq.
      * apply Forall_cons_iff in Hall. destruct Hall as [Hr Hall].
        destruct n; cbn [insert_at values map].
        -- constructor; [exact Hq|]. constructor; [exact Hr | exact Hall].
        -- constructor; [exact Hr|]. now apply IHl.
Qed.

Section Ordered.

Variable compare_doubles_delta : Q.
Variable ToString : Q -> Z -> string.
Variable GetBoundingBox : Label -> wxSize.
Variable SplitTextToFitLength : string -> string.
Variable ScaleToScreenAndCanvas : Axis -> Z -> Z.

Lemma Qlt_sorted_Qge_rev (l : list Q) :
  StronglySorted (fun v w => (w < v)%Q) l -> StronglySorted Qge_rev l.
Proof.
  induction 1 as [|h t Ht IH Hh]; constructor; [exact IH|].
  eapply Forall_impl; [|exact Hh]. intros v Hv. now apply Qlt_le_weak.
Qed.

Lemma SetRange_ordered (a : Axis) (s e : Q) (p : Z) (iv : Q) (di : Z) :
  ordered a -> ordered (SetRange ToString a s e p iv di).
Proof.
  intro Ho. destruct (Qlt_le_dec e (effective_start a s)) as [Hlt|Hse].
  - rewrite SetRange_rejected by exact Hlt. exact Ho.
  - pose proof (SetRange_frame ToString a s e p iv di) as F.
    cbv zeta in F. destruct F as (_ & _ & Hr & _).
    unfold ordered, IsReversed, GetAxisPoints. rewrite Hr.
    rewrite SetRange_accepted by exact Hse.
    destruct (SetRange_resolve_cases (effective_start a s) e iv Hse)
      as (s' & e' & iv' & Hres & Hcase).
    rewrite Hres.
    set (a0 := set_m_displayInterval di _).
    assert (Hrev0 : IsReversed a0 = IsReversed a) by reflexivity.
    destruct Hcase as [(Hiv & Hse' & _) | (Hidle & _)].
    + destruct (m_scaledReserved a) eqn:Er.
      * destruct (SetRange_generate_descending ToString a0 s' e' p iv' di)
          as (_ & _ & _ & _ & H & _); try assumption.
        now apply Qlt_sorted_Qge_rev.
      * destruct (SetRange_generate_ascending ToString a0 s' e' p iv' di)
          as (_ & _ & _ & _ & H & _); try assumption.
        now apply Qlt_sorted_Qle.
    + destruct (SetRange_generate_idle ToString a0 s' e' p iv' di Hidle)
        as (H & _).
      rewrite H. constructor.
Qed.

Lemma SetRange_auto_ordered (a : Axis) (s e : Q) (p : Z) (extra : bool) :
  ordered a -> ordered (SetRange_auto ToString a s e p extra).
Proof.
  intro Ho. unfold SetRange_auto.
  destruct (SetRange_auto_interval _ _) as [[intervalSize p'] rangeSize].
  now apply SetRange_ordered.
Qed.

Lemma Reset_ordered (a : Axis) (level : AxisResetLevel) :
  ordered a -> ordered (Reset a level).
Proof.
  intro Ho. destruct level; try exact Ho; unfold ordered; cbn;
    destruct (m_scaledReserved a); constructor.
Qed.

Lemma ReverseScale_ordered (a : Axis) (reverse : bool) :
  ordered a -> ordered (ReverseScale a reverse).
Proof.
  unfold ordered, ReverseScale, IsReversed, GetAxisPoints. intro Ho.
  destruct reverse, (m_scaledReserved a) eqn:Er; cbn; try rewrite Er; cbn;
    try exact Ho; rewrite values_rev;
    apply (StronglySorted_rev _ _ Ho).
Qed.

Lemma AddUnevenAxisPoint_ordered (a : Axis) (value : Q) (label : string) :
  ordered a ->
  ordered (AddUnevenAxisPoint compare_doubles_delta SplitTextToFitLength a
             value label).
Proof.
  unfold ordered, AddUnevenAxisPoint, IsReversed, GetAxisPoints. intro Ho.
  destruct (existsb _ _); [exact Ho|].
  cbn [m_axisLabels m_scaledReserved set_m_axisLabels].
  destruct (m_scaledReserved a).
  - apply insert_at_ordered; [| | |exact Ho]; unfold Qge_rev; cbn.
    + intros q Hq r Hr. apply Qlt_bool_true in Hq. lra.
    + intros q Hq. apply Qlt_bool_true in Hq. lra.
    + intros q Hq. now apply Qlt_bool_false in Hq.
  - apply insert_at_ordered; [| | |exact Ho]; cbn.
    + intros q Hq r Hr. apply Qlt_bool_true in Hq. lra.
    + intros q Hq. apply Qlt_bool_true in Hq. lra.
    + intros q Hq. now apply Qlt_bool_false in Hq.
Qed.

Lemma AdjustRangeToLabels_ordered (a : Axis) :
  ordered a -> ordered (AdjustRangeToLabels a).
Proof.
  intro Ho. unfold AdjustRangeToLabels.
  destruct (GetAxisPoints a) as [|first rest] eqn:E; [exact Ho|].
  destruct (fold_left _ _ _) as [rangeStart rangeEnd]. exact Ho.
Qed.

Lemma SetPoints_ordered (a : Axis) (pt1 pt2 : wxPoint) :
  ordered a ->
  ordered (SetPoints GetBoundingBox ScaleToScreenAndCanvas a pt1 pt2).
Proof.
  intro Ho.
  pose proof (SetPoints_frame GetBoundingBox ScaleToScreenAndCanvas a pt1
                pt2) as F.
  cbv zeta in F. destruct F as (_ & _ & _ & _ & Hr).
  unfold ordered, IsReversed, GetAxisPoints. rewrite Hr.
  rewrite (SetPoints_labels GetBoundingBox ScaleToScreenAndCanvas).
  rewrite assign_coordinates_values. exact Ho.
Qed.

Lemma SetDisplayInterval_ordered (fuel : nat) (a a' : Axis)
    (interval offset : Z) :
  ordered a ->
  SetDisplayInterval fuel a interval offset = Some a' ->
  ordered a'.
Proof.
  intros Ho H. unfold SetDisplayInterval in H.
  destruct (while_fuel _ _ _ _) as [[i labels]|] eqn:E; [|discriminate].
  inversion H; subst a'; clear H.
  apply display_loop_values in E. cbn [snd] in E.
  unfold ordered, IsReversed, GetAxisPoints.
  cbn [m_axisLabels m_scaledReserved invalidate_cached_labels
       set_m_axisLabels set_m_displayInterval set_m_widestLabel
       set_m_tallestLabel].
  cbn. cbn in E. rewrite E. unfold values. rewrite map_map. exact Ho.
Qed.

(** The order of the points is an invariant of every operation, hence of
    every sequence of them. *)
Lemma apply_op_ordered (a a' : Axis) (op : AxisOp) :
  ordered a ->
  apply_op compare_doubles_delta ToString GetBoundingBox SplitTextToFitLength
    ScaleToScreenAndCanvas a op = Some a' ->
  ordered a'.
Proof.
  intros Ho H. destruct op; cbn [apply_op] in H;
    try (inversion H; subst a'; clear H).
  - now apply Reset_ordered.
  - now apply SetRange_ordered.
  - now apply SetRange_auto_ordered.
  - exact Ho.
  - now apply ReverseScale_ordered.
  - exact Ho.
  - now apply AddUnevenAxisPoint_ordered.
  - now apply AdjustRangeToLabels_ordered.
  - now apply SetPoints_ordered.
  - eapply SetDisplayInterval_ordered; eassumption.
Qed.

Lemma run_ordered (ops : list AxisOp) :
  forall a a',
    ordered a ->
    run compare_doubles_delta ToString GetBoundingBox SplitTextToFitLength
      ScaleToScreenAndCanvas a ops = Some a' ->
    ordered a'.
Proof.
  induction ops as [|op ops IH]; intros a a' Ho H; cbn [run] in H.
  - inversion H; subst a'. exact Ho.
  - destruct (apply_op _ _ _ _ _ a op) as [a1|] eqn:E; [|discriminate].
    eapply IH; [|exact H]. eapply apply_op_ordered; eassumption.
Qed.

End Ordered.

(** [SetRange] on a forward axis leaves the values in strictly ascending
    order whenever it accepts the request. *)
Lemma SetRange_points_ascending (ToString : Q -> Z -> string) (a : Axis)
    (s e : Q) (p : Z) (iv : Q) (di : Z) :
  IsReversed a = false ->
  (effective_start a s <= e)%Q ->
  StronglySorted Qlt
    (values (m_axisLabels (SetRange ToString a s e p iv di))).
Proof.
  intros Hrev Hse. rewrite SetRange_accepted by exact Hse.
  destruct (SetRange_resolve_cases (effective_start a s) e iv Hse)
    as (s' & e' & iv' & Hres & Hcase).
  rewrite Hres.
  set (a0 := set_m_displayInterval di _).
  assert (Hrev0 : IsReversed a0 = false) by exact Hrev.
  destruct Hcase as [(Hiv & Hse' & _) | (Hidle & _)].
  - now destruct (SetRange_generate_ascending ToString a0 s' e' p iv' di
                    Hrev0 Hiv Hse') as (_ & _ & _ & _ & H & _).
  - destruct (SetRange_generate_idle ToString a0 s' e' p iv' di Hidle)
      as (H & _).
    rewrite H. constructor.
Qed.

(** [CopySettings] takes the range, the reversal flag and the custom labels
    of the other axis. *)
Lemma CopySettings_frame (a that : Axis) :
  m_customAxisLabels (CopySettings a that) = m_customAxisLabels that
  /\ m_axisLabels (CopySettings a that) = m_axisLabels that
  /\ m_scaledReserved (CopySettings a that) = m_scaledReserved that
  /\ m_rangeStart (CopySettings a that) = m_rangeStart that
  /\ m_rangeEnd (CopySettings a that) = m_rangeEnd that.
Proof. repeat split. Qed.


(** * The properties of the specification *)

(** C1 (as amended).  At an AxisPoint that sits on a whole pixel, on an axis
    whose points are strictly ordered in value (on a reversed axis: more
    than the comparison tolerance apart) and strictly ordered on the screen,
    [GetPhysicalCoordinate] returns that pixel and
    [GetValueFromPhysicalCoordinate] maps the pixel back to the value of the
    point. *)
Theorem C1_round_trip_at_whole_pixel (delta : Q) (a : Axis) (p : AxisPoint)
    (c : Z) :
  In p (GetAxisPoints a) ->
  (AxisPoint.GetPhysicalCoordinate p == inject_Z c)%Q ->
  (if IsReversed a
   then StronglySorted (fun v w => (w + Qabs delta < v)%Q)
          (values (GetAxisPoints a))
   else StronglySorted Qlt (values (GetAxisPoints a))) ->
  (if IsHorizontal a
   then StronglySorted Qlt (coordinates (GetAxisPoints a))
   else StronglySorted (fun c d => (d < c)%Q)
          (coordinates (GetAxisPoints a))) ->
  GetPhysicalCoordinate delta a (AxisPoint.GetValue p) = (true, c)
  /\ GetValueFromPhysicalCoordinate a c = (true, AxisPoint.GetValue p).
Proof.
  intros Hin Hc Hv Hp. split.
  - now apply GetPhysicalCoordinate_at_point.
  - now apply GetValueFromPhysicalCoordinate_at_point.
Qed.

(** The middle point of the axis over [0, 10] on 100 pixels: value 5 at
    pixel 50. *)
Lemma C1_round_trip_witness :
  let p := nth 1 (GetAxisPoints axis_0_10_on_100px) (AxisPoint.make 0 "" true)
  in
  In p (GetAxisPoints axis_0_10_on_100px)
  /\ (AxisPoint.GetPhysicalCoordinate p == inject_Z 50)%Q
  /\ GetPhysicalCoordinate demo_delta axis_0_10_on_100px
       (AxisPoint.GetValue p) = (true, 50)
  /\ GetValueFromPhysicalCoordinate axis_0_10_on_100px 50
     = (true, AxisPoint.GetValue p).
Proof.
  cbv zeta.
  assert (Hin : In (nth 1 (GetAxisPoints axis_0_10_on_100px)
                      (AxisPoint.make 0 "" true))
                   (GetAxisPoints axis_0_10_on_100px))
    by (vm_compute; right; left; reflexivity).
  assert (Hc : (AxisPoint.GetPhysicalCoordinate
                  (nth 1 (GetAxisPoints axis_0_10_on_100px)
                     (AxisPoint.make 0 "" true)) == inject_Z 50)%Q)
    by (vm_compute; reflexivity).
  split; [exact Hin|]. split; [exact Hc|].
  apply (C1_round_trip_at_whole_pixel demo_delta axis_0_10_on_100px _ 50
           Hin Hc).
  - vm_compute. repeat constructor.
  - vm_compute. repeat constructor.
Defined.

(** C1 fails as stated: three points on a five-pixel line put the middle
    point at pixel 2.5; the value 1 maps to pixel 2, and pixel 2 maps back
    to 0.8. *)
Lemma C1_round_trip_counterexample :
  values (GetAxisPoints axis_0_2_on_5px) = [0; 1; 2]%Q
  /\ GetPhysicalCoordinate demo_delta axis_0_2_on_5px 1 = (true, 2)
  /\ GetValueFromPhysicalCoordinate axis_0_2_on_5px 2 = (true, (16 # 20)%Q)
  /\ ((16 # 20) < 1)%Q.
Proof. repeat split. Qed.














(** C7.  With auto-stacking enabled, on an axis of 200 pixels showing ten
    labels that each measure 30 pixels along the axis (labels drawn parallel
    to it), [ShouldLabelsBeStackedToFit] returns [true]; with auto-stacking
    disabled it returns the stacking setting the client fixed, whatever the
    labels measure. *)
Theorem C7_stacking_trigger (GetBoundingBox : Label -> wxSize)
    (ToDIP : Z -> Z) (a : Axis) :
  (IsAutoStackingEnabled a = true ->
   GetAxisLabelOrientation a = Parallel ->
   axisPixelLength a = 200 ->
   List.length (filter (IsPointDisplayingLabel a) (GetAxisPoints a))
   = 10%nat ->
   (forall p, In p (GetAxisPoints a) -> IsPointDisplayingLabel a p = true ->
      GetWidth
        (GetBoundingBox
           (Label.SetText
              (AdjustLabelSizeIfUsingBackgroundColor ToDIP a
                 (Label.make EmptyString (GetScaling a) (m_padding a)) true)
              (Label.GetText (GetDisplayableValue a p)))) = 30) ->
   ShouldLabelsBeStackedToFit GetBoundingBox ToDIP a = true)
  /\ (IsAutoStackingEnabled a = false ->
      ShouldLabelsBeStackedToFit GetBoundingBox ToDIP a = IsStackingLabels a).
Proof.
  split.
  - apply ShouldLabelsBeStackedToFit_scenario.
  - apply ShouldLabelsBeStackedToFit_fixed.
Qed.

(** Ten labels of 30 pixels on 200 pixels, with auto-stacking on and
    off. *)
Lemma C7_stacking_witness :
  axisPixelLength axis_0_9_on_200px = 200
  /\ List.length
       (filter (IsPointDisplayingLabel axis_0_9_on_200px)
          (GetAxisPoints axis_0_9_on_200px)) = 10%nat
  /\ ShouldLabelsBeStackedToFit demo_GetBoundingBox demo_ToDIP
       axis_0_9_on_200px = true
  /\ ShouldLabelsBeStackedToFit demo_GetBoundingBox demo_ToDIP
       (set_m_enableAutoStacking false axis_0_9_on_200px)
     = IsStackingLabels (set_m_enableAutoStacking false axis_0_9_on_200px).
Proof.
  split; [reflexivity|]. split; [reflexivity|]. split.
  - destruct (C7_stacking_trigger demo_GetBoundingBox demo_ToDIP
                axis_0_9_on_200px) as [H _].
    apply H; try reflexivity.
  - destruct (C7_stacking_trigger demo_GetBoundingBox demo_ToDIP
                (set_m_enableAutoStacking false axis_0_9_on_200px))
      as [_ H].
    apply H. reflexivity.
Defined.

(** C8 (the code departs from it).  [SetDisplayInterval(0, 0)] on the axis
    over [0, 10] never returns: with a stride of zero the index of the
    second loop stays at the offset, below the number of points, whatever
    the number of iterations allowed. *)
Theorem C8_SetDisplayInterval_zero_interval_never_returns :
  forall fuel : nat,
    SetDisplayInterval fuel axis_0_10_on_100px 0 0 = None.
Proof.
  apply SetDisplayInterval_zero_interval_diverges. reflexivity.
Qed.

(** C9 (as amended).  On an axis that is not reversed, [ReverseScale(true)]
    followed by [ReverseScale(false)] restores the order of the AxisPoints
    and the reversed flag, and [GetPhysicalCoordinate] gives the results it
    gave before. *)
Theorem C9_reversal_symmetry (delta : Q) (a : Axis) :
  IsReversed a = false ->
  let a' := ReverseScale (ReverseScale a true) false in
  GetAxisPoints a' = GetAxisPoints a
  /\ IsReversed a' = IsReversed a
  /\ (forall value : Q,
        GetPhysicalCoordinate delta a' value
        = GetPhysicalCoordinate delta a value).
Proof.
  intros Hrev a'.
  assert (Hl : m_axisLabels a' = m_axisLabels a)
    by (now apply ReverseScale_twice_labels).
  assert (Hf : m_scaledReserved a' = m_scaledReserved a)
    by (unfold IsReversed in Hrev; rewrite Hrev; reflexivity).
  split; [exact Hl|]. split; [exact Hf|].
  intro value.
  apply GetPhysicalCoordinate_ext; [exact Hl | exact Hf |].
  unfold a', ReverseScale, IsReversed in *. rewrite Hrev. reflexivity.
Qed.

(** The axis over [0, 10] on 100 pixels and the value 7. *)
Lemma C9_reversal_witness :
  IsReversed axis_0_10_on_100px = false
  /\ GetAxisPoints (ReverseScale (ReverseScale axis_0_10_on_100px true) false)
     = GetAxisPoints axis_0_10_on_100px
  /\ GetPhysicalCoordinate demo_delta
       (ReverseScale (ReverseScale axis_0_10_on_100px true) false) 7
     = GetPhysicalCoordinate demo_delta axis_0_10_on_100px 7.
Proof.
  destruct (C9_reversal_symmetry demo_delta axis_0_10_on_100px eq_refl)
    as (H1 & _ & H3).
  split; [reflexivity|]. split; [exact H1 | exact (H3 7%Q)].
Defined.

(** C9 fails as stated: on an axis that is already reversed,
    [ReverseScale(true)] changes nothing and [ReverseScale(false)] then
    turns the points round and clears the flag. *)
Lemma C9_reversal_counterexample :
  IsReversed reversed_axis_0_10_on_100px = true
  /\ values (GetAxisPoints reversed_axis_0_10_on_100px) = [10; 5; 0]%Q
  /\ IsReversed
       (ReverseScale (ReverseScale reversed_axis_0_10_on_100px true) false)
     = false
  /\ values
       (GetAxisPoints
          (ReverseScale (ReverseScale reversed_axis_0_10_on_100px true)
             false)) = [0; 5; 10]%Q.
Proof. repeat split. Qed.



